(** * Ethlint rule loader: lib/utils/rule-loader.js

    A shallow embedding of the module that locates rule definitions
    (the constants table, [resolveUpstream], [resolvePluginConfig], the
    [ruleDefs] registry and [load]) and the properties its specification
    states about them.

    JavaScript objects are shared and mutable: the registry [ruleDefs] is
    one object that [load] mutates and hands back, and a rule implementation
    bound into it is the plugin's own object, not a copy.  The embedding
    therefore keeps a store of objects addressed by references and threads
    it, together with exceptions, through a small monad. *)

From Stdlib Require Import ZArith Ascii String List Lia.
From stdpp Require Import base option gmap strings list fin_maps.

Local Open Scope string_scope.

(** ** Strings *)

Module Str.

(** The double quote and the line feed, which the source writes as the
    escapes backslash-quote and backslash-n. *)
Definition dq : string := String "034"%char EmptyString.
Definition lf : string := String "010"%char EmptyString.

(** [s.indexOf(c)] for a one-character needle: the position of the first
    occurrence, or -1. *)
Fixpoint indexOf (c : ascii) (s : string) : Z :=
  match s with
  | EmptyString => -1
  | String a s' =>
      if Ascii.eqb a c then 0
      else let i := indexOf c s' in
           if (i <? 0)%Z then -1 else (i + 1)%Z
  end.

(** [s.split(c)] for a one-character separator: never empty, one more
    segment than there are separators. *)
Fixpoint split (c : ascii) (s : string) : list string :=
  match s with
  | EmptyString => [EmptyString]
  | String a s' =>
      if Ascii.eqb a c then EmptyString :: split c s'
      else match split c s' with
           | p :: ps => String a p :: ps
           | [] => [String a EmptyString]
           end
  end.

(** [parts[i]] used as a string (an operand of [+] or a property key):
    an index past the end reads [undefined], which is rendered as the
    text undefined. *)
Definition at_ (parts : list string) (i : nat) : string :=
  match nth_error parts i with
  | Some s => s
  | None => "undefined"
  end.

(** [s] occurs in [t]. *)
Definition occurs_in (s t : string) : Prop :=
  exists pre post, t = pre +:+ s +:+ post.

(** [c] occurs in [s], and how often. *)
Fixpoint has (c : ascii) (s : string) : bool :=
  match s with
  | EmptyString => false
  | String a s' => Ascii.eqb a c || has c s'
  end.


End Str.

(** ** Values, objects and the store *)

Definition loc := positive.

(** The fragment of JavaScript values the module handles: [undefined],
    [null], primitive strings, references to plain objects, and the members
    every plain object inherits from [Object.prototype], kept opaque. *)
Inductive value :=
| VUndefined
| VNull
| VStr (s : string)
| VRef (l : loc)
| VInherited (member : string).

#[global] Instance value_eq_dec : EqDecision value.
Proof. solve_decision. Defined.

(** An object is the list of its own enumerable properties, in the order
    [Object.keys] enumerates them. *)
Abbreviation object := (list (string * value)).

Fixpoint own_get (o : object) (k : string) : option value :=
  match o with
  | [] => None
  | (k', v) :: o' => if String.eqb k' k then Some v else own_get o' k
  end.

(** [o[k] = v] on own data properties: an existing key keeps its place, a
    new one goes last. *)
Fixpoint own_set (o : object) (k : string) (v : value) : object :=
  match o with
  | [] => [(k, v)]
  | (k', v') :: o' =>
      if String.eqb k' k then (k', v) :: o' else (k', v') :: own_set o' k v
  end.

Definition own_keys (o : object) : list string := map fst o.

Definition Object_prototype_members : list string :=
  [ "constructor"; "__defineGetter__"; "__defineSetter__"; "hasOwnProperty";
    "__lookupGetter__"; "__lookupSetter__"; "isPrototypeOf";
    "propertyIsEnumerable"; "toString"; "valueOf"; "__proto__";
    "toLocaleString" ].

(** What a read finds past the own properties of an object literal. *)
Definition inherited (k : string) : value :=
  if existsb (String.eqb k) Object_prototype_members
  then VInherited k else VUndefined.

Abbreviation heap := (gmap loc object).

(** The object at a reference (a reference into nothing reads as empty). *)
Definition obj_at (h : heap) (l : loc) : object :=
  match h !! l with
  | Some o => o
  | None => []
  end.

(** ** Exceptions *)

Inductive type_fault :=
| ReadProperty (base : value) (key : string)  (* reading [key] of undefined or null *)
| ToObject (v : value).                      (* [Object.keys] of undefined or null *)

Inductive exn :=
| Error (message : string)                          (* [new Error(message)] *)
| TypeError (fault : type_fault)                    (* raised by the engine *)
| HostError (code : option string) (message : string).  (* raised while a module is required *)

Inductive completion (A : Type) :=
| Normal (a : A)
| Abrupt (e : exn).
Arguments Normal {A} a.
Arguments Abrupt {A} e.

(** ** The monad of store-passing computations that may throw *)

Definition M (A : Type) : Type := heap -> completion A * heap.

Definition ret {A} (a : A) : M A := fun h => (Normal a, h).

Definition bind {A B} (m : M A) (k : A -> M B) : M B := fun h =>
  match m h with
  | (Normal a, h') => k a h'
  | (Abrupt e, h') => (Abrupt e, h')
  end.

Definition throw {A} (e : exn) : M A := fun h => (Abrupt e, h).

(** [try { m } catch (e) { handler e }]: the store changes made before the
    throw are kept. *)
Definition try_catch {A} (m : M A) (handler : exn -> M A) : M A := fun h =>
  match m h with
  | (Normal a, h') => (Normal a, h')
  | (Abrupt e, h') => handler e h'
  end.

Notation "x <- m ;; k" := (bind m (fun x => k))
  (at level 100, m at next level, right associativity).

(** [l.forEach(f)]: in order, stopping at the first throw. *)
Fixpoint forEach {A} (l : list A) (f : A -> M unit) : M unit :=
  match l with
  | [] => ret tt
  | x :: l' => _ <- f x ;; forEach l' f
  end.

(** ** Property reads and writes *)

(** [v[k]]. Own properties first, then [Object.prototype].  The own index
    and length properties of a primitive string and the members of
    [String.prototype] and [Function.prototype] are outside the fragment. *)
Definition read (o : object) (k : string) : value :=
  match own_get o k with
  | Some x => x
  | None => inherited k
  end.

Definition Get (v : value) (k : string) : M value := fun h =>
  match v with
  | VUndefined | VNull => (Abrupt (TypeError (ReadProperty v k)), h)
  | VRef l => (Normal (read (obj_at h l) k), h)
  | VStr _ | VInherited _ => (Normal (inherited k), h)
  end.

(** [l[k] = v] where [l] is an object literal and [k] neither an index nor
    [__proto__]: every key this module writes contains a slash. *)
Definition Put (l : loc) (k : string) (v : value) : M unit := fun h =>
  (Normal tt, <[l := own_set (obj_at h l) k v]> h).

(** A new object literal. *)
Definition alloc (o : object) : M loc := fun h =>
  let l := fresh (dom h) in (Normal l, <[l := o]> h).

(** [Object.keys(v)]; the index keys of a primitive string are outside the
    fragment. *)
Definition Object_keys (v : value) : M (list string) := fun h =>
  match v with
  | VUndefined | VNull => (Abrupt (TypeError (ToObject v)), h)
  | VRef l => (Normal (own_keys (obj_at h l)), h)
  | VStr _ | VInherited _ => (Normal [], h)
  end.

(** ** The module *)

Import Str.

(** *** [constants] (lines 11-19) *)

Definition SOLIUM_RULESET_ALL : string := "solium:all".
Definition SOLIUM_RULESET_RECOMMENDED : string := "solium:all".
Definition SOLIUM_CORE_RULES_DIRNAME : string := "rules".
Definition SOLIUM_PLUGIN_PREFIX : string := "solium-plugin-".
Definition SOLIUM_SHARABLE_CONFIG_PREFIX : string := "solium-config-".
Definition SOLIUM_CORE_RULES_DIRPATH : string := "../" +:+ SOLIUM_CORE_RULES_DIRNAME.

(** *** The pattern [/^solium:[a-z_]+$/] (line 28)

    No flag is set, so [^] and [$] are the two ends of the input. *)

Definition lower_or_underscore (a : ascii) : bool :=
  let n := nat_of_ascii a in
  ((97 <=? n)%nat && (n <=? 122)%nat) || (n =? 95)%nat.

Fixpoint all_chars (p : ascii -> bool) (s : string) : bool :=
  match s with
  | EmptyString => true
  | String a s' => p a && all_chars p s'
  end.

Fixpoint strip_prefix (p s : string) : option string :=
  match p, s with
  | EmptyString, _ => Some s
  | String a p', String b s' => if Ascii.eqb a b then strip_prefix p' s' else None
  | String _ _, EmptyString => None
  end.

Definition coreRulesetRegExp_test (s : string) : bool :=
  match strip_prefix "solium:" s with
  | Some EmptyString => false
  | Some rest => all_chars lower_or_underscore rest
  | None => false
  end.

(** *** The names of the [ruleDefs] literal (lines 84-119), in order *)

Definition core_rule_names : list string :=
  [ "arg-overflow"; "array-declarations"; "blank-lines"; "camelcase";
    "comma-whitespace"; "conditionals-whitespace"; "constructor";
    "deprecated-suicide"; "double-quotes"; "emit"; "error-reason";
    "function-order"; "function-whitespace"; "imports-on-top";
    "indentation"; "lbrace"; "linebreak-style"; "max-len"; "mixedcase";
    "no-constant"; "no-empty-blocks"; "no-experimental";
    "no-trailing-whitespace"; "no-unused-vars"; "no-with";
    "operator-whitespace"; "pragma-on-top"; "quotes";
    "semicolon-whitespace"; "uppercase"; "value-in-payable";
    "variable-declarations"; "visibility-first"; "whitespace" ].

(** The object the literal builds once every [require('../rules/<name>')]
    has returned; [required path] is what the host returned for [path]. *)
Definition ruleDefs_literal (required : string -> value) : object :=
  map (fun name => (name, required ("../rules/" +:+ name))) core_rule_names.

Section RuleLoader.

(** The host: [require], the schema validator of ./config-inspector with
    the rendering [util.inspect] gives of its last errors, [path.join],
    and the text the engine puts in the message of a [TypeError]. *)
Variable require : string -> M value.
Variable isAValidSharableConfig : value -> M bool.
Variable inspect_isAValidSharableConfig_errors : M string.
Variable path_join : string -> string -> string.
Variable type_fault_message : type_fault -> string.

(** The object bound to the module-level variable [ruleDefs]. *)
Variable ruleDefs : loc.

(** [e.code] compared with a string, and [e.message] appended to one. *)
Definition exn_code (e : exn) : option string :=
  match e with
  | HostError c _ => c
  | Error _ | TypeError _ => None
  end.

Definition exn_message (e : exn) : string :=
  match e with
  | Error m | HostError _ m => m
  | TypeError f => type_fault_message f
  end.

(** *** [resolveUpstream] (lines 27-63) *)

Definition not_a_core_ruleset (upstream : string) : string :=
  dq +:+ upstream +:+ dq +:+ " is not a core ruleset.".

Definition not_installed (configName : string) : string :=
  "The sharable config " +:+ dq +:+ configName +:+ dq +:+ " is not installed. " +:+
  "If Solium is installed globally, install the config globally using " +:+
  dq +:+ "npm install -g " +:+ configName +:+ dq +:+ ". Else install locally using " +:+
  dq +:+ "npm install --save-dev " +:+ configName +:+ dq +:+ ".".

Definition could_not_be_loaded (configName message : string) : string :=
  "The sharable config " +:+ dq +:+ configName +:+ dq +:+
  " could not be loaded: " +:+ message.

Definition invalid_sharable_config (configName detail : string) : string :=
  "Invalid sharable config " +:+ dq +:+
  configName +:+ dq +:+ ". AJV message:" +:+ lf +:+ detail.

Definition resolveUpstream (upstream : string) : M value :=
  if coreRulesetRegExp_test upstream then
    try_catch
      (exports <- require ("../../config/rulesets/solium-" +:+ at_ (split ":" upstream) 1) ;;
       Get exports "rules")
      (fun e => throw (Error (not_a_core_ruleset upstream)))
  else
    let configName := SOLIUM_SHARABLE_CONFIG_PREFIX +:+ upstream in
    config <- try_catch (require configName)
                (fun e =>
                   if decide (exn_code e = Some "MODULE_NOT_FOUND")
                   then throw (Error (not_installed configName))
                   else throw (Error (could_not_be_loaded configName (exn_message e)))) ;;
    valid <- isAValidSharableConfig config ;;
    if (valid : bool) then Get config "rules"
    else
      detail <- inspect_isAValidSharableConfig_errors ;;
      throw (Error (invalid_sharable_config configName detail)).

(** *** [resolvePluginConfig] (lines 73-81) *)

(** The right-hand side of line 77, [plugin.rules[ruleName].meta.docs.type]. *)
Definition meta_docs_type (plugin : value) (ruleName : string) : M value :=
  rules <- Get plugin "rules" ;;
  rule <- Get rules ruleName ;;
  meta <- Get rule "meta" ;;
  docs <- Get meta "docs" ;;
  Get docs "type".

Definition resolvePluginConfig (name : string) (plugin : value) : M value :=
  config <- alloc [] ;;
  rules <- Get plugin "rules" ;;
  keys <- Object_keys rules ;;
  _ <- forEach keys (fun ruleName =>
         type <- meta_docs_type plugin ruleName ;;
         Put config (name +:+ "/" +:+ ruleName) type) ;;
  ret (VRef config).

(** *** [load] (lines 126-157)

    The core branch keeps the source's shape: the [require] in its [try]
    block is commented out, so the block is empty. *)

Definition unable_to_load_plugin (pluginName : string) : string :=
  "Unable to load Plugin " +:+ dq +:+ pluginName +:+ dq +:+ ".".

Definition unable_to_read (ruleFile : string) : string :=
  "Unable to read " +:+ ruleFile.

(** The callback of [listOfRules.forEach] (lines 127-154), for one name. *)
Definition load_one (plugins : value) (name : string) : M unit :=
  if (indexOf "/" name >? -1)%Z then
    let parts := split "/" name in
    let pluginName := SOLIUM_PLUGIN_PREFIX +:+ at_ parts 0 in
    let ruleName := at_ parts 1 in
    plugin <- try_catch (Get plugins pluginName)
                (fun e => throw (Error (unable_to_load_plugin pluginName))) ;;
    rules <- Get plugin "rules" ;;
    impl <- Get rules ruleName ;;
    Put ruleDefs name impl
  else
    let ruleFile := path_join SOLIUM_CORE_RULES_DIRPATH name in
    try_catch (ret tt) (fun e => throw (Error (unable_to_read ruleFile))).

Definition load (listOfRules : list string) (plugins : value) : M value :=
  _ <- forEach listOfRules (load_one plugins) ;;
  ret (VRef ruleDefs).

End RuleLoader.

(** ** Well-formed plugin objects

    The shape the module expects of a plugin: an object whose [rules] is
    an object, each rule of which is an object with a [meta] object holding
    a [docs] object.  [declared_type] is the [type] such a rule declares,
    absent ([undefined]) or not. *)

Definition as_object (h : heap) (v : value) : option object :=
  match v with
  | VRef l => h !! l
  | _ => None
  end.

Definition declared_type (h : heap) (rule : value) : option value :=
  match as_object h rule with
  | Some ro =>
      match as_object h (read ro "meta") with
      | Some mo =>
          match as_object h (read mo "docs") with
          | Some d => Some (read d "type")
          | None => None
          end
      | None => None
      end
  | None => None
  end.

Definition plugin_rules (h : heap) (plugin : value) : option object :=
  match as_object h plugin with
  | Some po => as_object h (read po "rules")
  | None => None
  end.

Definition well_formed_plugin (h : heap) (plugin : value) : bool :=
  match plugin_rules h plugin with
  | Some ro =>
      bool_decide (NoDup (own_keys ro))
      && forallb (fun kv => bool_decide (is_Some (declared_type h (snd kv)))) ro
  | None => false
  end.

(** The type each rule of a well-formed plugin declares. *)
Definition type_of_rule (h : heap) (ro : object) (r : string) : value :=
  match own_get ro r with
  | Some rule => default VUndefined (declared_type h rule)
  | None => VUndefined
  end.

(** The key line 77 writes for a rule, and the object the loop of lines
    76-78 has built after a list of rule names, starting from [cfg]. *)
Definition config_key (name ruleName : string) : string := name +:+ "/" +:+ ruleName.

Definition config_after (name : string) (type_of : string -> value)
           (keys : list string) (cfg : object) : object :=
  fold_left (fun cfg r => own_set cfg (config_key name r) (type_of r)) keys cfg.

(** ** A concrete host and store

    The registry is the object of the [ruleDefs] literal, each core rule
    export an object of its own; the plugin table of the first store is the
    empty literal, that of the second holds the package
    solium-plugin-pluginA with the one rule ruleB. *)

Module Examples.

(** [path.join] on a directory and a plain file name. *)
Definition posix_join (dir file : string) : string := dir +:+ "/" +:+ file.

Definition table : loc := 1%positive.
Definition registry : loc := 2%positive.
Definition pluginA : loc := 3%positive.
Definition pluginA_rules : loc := 4%positive.
Definition impl : loc := 5%positive.
Definition impl_meta : loc := 6%positive.
Definition impl_docs : loc := 7%positive.
Definition foo : loc := 10%positive.
Definition foo_rules : loc := 11%positive.
Definition bar : loc := 12%positive.
Definition bar_meta : loc := 13%positive.
Definition bar_docs : loc := 14%positive.
Definition broken : loc := 15%positive.
Definition broken_rules : loc := 16%positive.
Definition baz : loc := 17%positive.

Definition rule_loc (i : nat) : loc := Pos.of_nat (100 + i).

Definition core_exports : list (string * value) :=
  imap (fun i name => ("../rules/" +:+ name, VRef (rule_loc i))) core_rule_names.

Definition required (path : string) : value :=
  default VUndefined (own_get core_exports path).

Definition core_objects : heap :=
  list_to_map (imap (fun i _ => (rule_loc i, ([] : object))) core_rule_names).

Definition store : heap :=
  <[table := []]> (<[registry := ruleDefs_literal required]> core_objects).

Definition store_with_plugin : heap :=
  <[table := [("solium-plugin-pluginA", VRef pluginA)]]>
  (<[pluginA := [("rules", VRef pluginA_rules)]]>
  (<[pluginA_rules := [("ruleB", VRef impl)]]>
  (<[impl := [("meta", VRef impl_meta)]]>
  (<[impl_meta := [("docs", VRef impl_docs)]]>
  (<[impl_docs := [("type", VStr "security")]]>
  (<[foo := [("rules", VRef foo_rules)]]>
  (<[foo_rules := [("bar", VRef bar)]]>
  (<[bar := [("meta", VRef bar_meta)]]>
  (<[bar_meta := [("docs", VRef bar_docs)]]>
  (<[bar_docs := [("type", VStr "security")]]>
  (<[broken := [("rules", VRef broken_rules)]]>
  (<[broken_rules := [("baz", VRef baz)]]>
  (<[baz := []]>
  (<[registry := ruleDefs_literal required]> core_objects)))))))))))))).

(** A host that knows one core ruleset and no sharable config, and a
    validator that accepts the objects with a [rules] property. *)
Definition ruleset_all : loc := 8%positive.
Definition ruleset_all_rules : loc := 9%positive.

Definition store_with_ruleset : heap :=
  <[ruleset_all := [("rules", VRef ruleset_all_rules)]]>
  (<[ruleset_all_rules := [("quotes", VStr "error")]]> store).

Definition host_require (path : string) : M value :=
  if String.eqb path "../../config/rulesets/solium-all"
  then ret (VRef ruleset_all)
  else throw (HostError (Some "MODULE_NOT_FOUND") ("Cannot find module '" +:+ path +:+ "'")).

Definition host_validator (config : value) : M bool := fun h =>
  (Normal match config with
          | VRef l => bool_decide (is_Some (own_get (obj_at h l) "rules"))
          | _ => false
          end, h).

Definition host_inspect : M string := ret "[ { keyword: 'required' } ]".

Definition host_fault_message (f : type_fault) : string :=
  match f with
  | ReadProperty _ k => "Cannot read property '" +:+ k +:+ "'"
  | ToObject _ => "Cannot convert undefined or null to object"
  end.

(** A host for sharable configs: one package whose config has [rules], one
    whose config is an empty object, one whose module throws while it is
    loaded, and nothing else installed. *)
Definition sharable_require (path : string) : M value :=
  if String.eqb path "solium-config-good" then ret (VRef ruleset_all)
  else if String.eqb path "solium-config-bad" then ret (VRef table)
  else if String.eqb path "solium-config-broken"
       then throw (HostError None "Unexpected token")
  else throw (HostError (Some "MODULE_NOT_FOUND") ("Cannot find module '" +:+ path +:+ "'")).

(** A plugin object [mixed] with three rules, in this order: bar (well
    formed), baz (no [meta]) and ruleB (well formed). *)
Definition mixed : loc := 18%positive.
Definition mixed_rules : loc := 19%positive.

Definition store_with_mixed : heap :=
  <[mixed := [("rules", VRef mixed_rules)]]>
  (<[mixed_rules := [("bar", VRef bar); ("baz", VRef baz); ("ruleB", VRef impl)]]>
   store_with_plugin).

End Examples.

(** * Properties *)

(** ** Strings *)

Section StringFacts.

Variable c : ascii.

Lemma indexOf_lower_bound (s : string) : (-1 <= indexOf c s)%Z.
Proof.
  induction s as [|a s IH]; simpl; [lia|].
  destruct (Ascii.eqb a c); [lia|].
  destruct (indexOf c s <? 0)%Z eqn:E; lia.
Qed.

(** The test [s.indexOf(c) > -1] of the source says that [c] occurs. *)
Lemma indexOf_gt_has (s : string) : (indexOf c s >? -1)%Z = has c s.
Proof.
  induction s as [|a s IH]; simpl; [reflexivity|].
  destruct (Ascii.eqb a c); simpl; [reflexivity|].
  rewrite <- IH. pose proof (indexOf_lower_bound s).
  destruct (indexOf c s <? 0)%Z eqn:E.
  - apply Z.ltb_lt in E. replace (indexOf c s) with (-1)%Z by lia. reflexivity.
  - apply Z.ltb_ge in E.
    transitivity true; [|symmetry]; apply Z.gtb_lt; lia.
Qed.

Lemma split_nonempty (s : string) : split c s <> [].
Proof.
  induction s as [|a s IH]; simpl; [discriminate|].
  destruct (Ascii.eqb a c); [discriminate|].
  destruct (split c s); [contradiction|discriminate].
Qed.

Lemma split_without (s : string) : has c s = false -> split c s = [s].
Proof.
  induction s as [|a s IH]; simpl; [reflexivity|].
  destruct (Ascii.eqb a c); simpl; [discriminate|].
  intros H. rewrite (IH H). reflexivity.
Qed.

(** Splitting stops the first segment at the first separator. *)
Lemma split_at_first (p q : string) :
  has c p = false -> split c (p +:+ String c q) = p :: split c q.
Proof.
  induction p as [|a p IH]; simpl.
  - intros _. rewrite Ascii.eqb_refl. reflexivity.
  - destruct (Ascii.eqb a c) eqn:E; simpl; [discriminate|].
    intros H. rewrite (IH H). reflexivity.
Qed.

Lemma has_append (p q : string) : has c (p +:+ String c q) = true.
Proof.
  induction p as [|a p IH]; simpl.
  - rewrite Ascii.eqb_refl. reflexivity.
  - rewrite IH. apply orb_true_r.
Qed.




End StringFacts.

Lemma append_inj_r (p a b : string) : p +:+ a = p +:+ b -> a = b.
Proof.
  induction p as [|x p IH]; [trivial|].
  change (String x (p +:+ a) = String x (p +:+ b) -> a = b).
  intros H. injection H. exact IH.
Qed.

Lemma append_assoc (a b d : string) : (a +:+ b) +:+ d = a +:+ b +:+ d.
Proof.
  induction a as [|x a IH]; [reflexivity|].
  change (String x ((a +:+ b) +:+ d) = String x (a +:+ b +:+ d)).
  rewrite IH. reflexivity.
Qed.

(** ** Objects and the store *)

Lemma own_get_set_eq (o : object) (k : string) (v : value) :
  own_get (own_set o k v) k = Some v.
Proof.
  induction o as [|[k' v'] o IH]; simpl.
  - rewrite String.eqb_refl. reflexivity.
  - destruct (String.eqb k' k) eqn:E; simpl; rewrite E; [reflexivity | exact IH].
Qed.

Lemma own_get_set_ne (o : object) (k k' : string) (v : value) :
  k <> k' -> own_get (own_set o k v) k' = own_get o k'.
Proof.
  intros Hne. induction o as [|[k0 v0] o IH]; simpl.
  - destruct (String.eqb k k') eqn:E; [apply String.eqb_eq in E; contradiction | reflexivity].
  - destruct (String.eqb k0 k) eqn:E; simpl.
    + apply String.eqb_eq in E. subst k0.
      destruct (String.eqb k k') eqn:E'; [apply String.eqb_eq in E'; contradiction | reflexivity].
    + rewrite IH. reflexivity.
Qed.

Lemma own_get_None_keys (o : object) (k : string) :
  own_get o k = None <-> ~ In k (own_keys o).
Proof.
  induction o as [|[k' v'] o IH]; simpl; [tauto|].
  destruct (String.eqb k' k) eqn:E.
  - apply String.eqb_eq in E. split; [discriminate | intros H; exfalso; apply H; left; exact E].
  - apply String.eqb_neq in E. rewrite IH. tauto.
Qed.

Lemma own_keys_set_new (o : object) (k : string) (v : value) :
  ~ In k (own_keys o) -> own_keys (own_set o k v) = (own_keys o ++ [k])%list.
Proof.
  induction o as [|[k' v'] o IH]; simpl; [reflexivity|].
  intros H. destruct (String.eqb k' k) eqn:E.
  - apply String.eqb_eq in E. exfalso. apply H. left. exact E.
  - simpl. rewrite IH; [reflexivity | tauto].
Qed.

Lemma obj_at_insert_eq (h : heap) (l : loc) (o : object) : obj_at (<[l:=o]> h) l = o.
Proof. unfold obj_at. rewrite lookup_insert_eq. reflexivity. Qed.

Lemma obj_at_insert_ne (h : heap) (l l' : loc) (o : object) :
  l <> l' -> obj_at (<[l:=o]> h) l' = obj_at h l'.
Proof. intros H. unfold obj_at. rewrite lookup_insert_ne by exact H. reflexivity. Qed.

(** A read leaves the store as it is. *)
Lemma Get_store (v : value) (k : string) (h : heap) : snd (Get v k h) = h.
Proof. destruct v; reflexivity. Qed.

(** No member of [Object.prototype] carries the plugin prefix, so a plugin
    package that is not an own key of the table reads as [undefined]. *)
Lemma plugin_package_not_inherited (p : string) :
  inherited (SOLIUM_PLUGIN_PREFIX +:+ p) = VUndefined.
Proof. reflexivity. Qed.

(** ** [load] *)

Section LoadFacts.

Variable path_join : string -> string -> string.
Variable ruleDefs : loc.

Local Abbreviation run_one := (load_one path_join ruleDefs).
Local Abbreviation run := (load path_join ruleDefs).

(** The core branch does nothing at all. *)
Lemma load_one_bare (plugins : value) (name : string) (h : heap) :
  has "/" name = false -> run_one plugins name h = (Normal tt, h).
Proof.
  intros H. unfold load_one.
  rewrite indexOf_gt_has, H. reflexivity.
Qed.

Lemma load_cons (name : string) (rest : list string) (plugins : value) (h : heap) :
  run (name :: rest) plugins h =
  match run_one plugins name h with
  | (Normal _, h') => run rest plugins h'
  | (Abrupt e, h') => (Abrupt e, h')
  end.
Proof.
  unfold load, bind. simpl. unfold bind.
  destruct (run_one plugins name h) as [[[]|e] h']; reflexivity.
Qed.

Lemma load_nil (plugins : value) (h : heap) : run [] plugins h = (Normal (VRef ruleDefs), h).
Proof. reflexivity. Qed.

Lemma load_bare_head (name : string) (rest : list string) (plugins : value) (h : heap) :
  has "/" name = false -> run (name :: rest) plugins h = run rest plugins h.
Proof. intros H. rewrite load_cons, load_one_bare by exact H. reflexivity. Qed.

(** The plugin branch, when the three reads go through. *)
Lemma load_one_plugin (name : string) (tbl : loc) (h : heap) (plugin rules impl : value) :
  has "/" name = true ->
  own_get (obj_at h tbl) (SOLIUM_PLUGIN_PREFIX +:+ at_ (split "/" name) 0) = Some plugin ->
  Get plugin "rules" h = (Normal rules, h) ->
  Get rules (at_ (split "/" name) 1) h = (Normal impl, h) ->
  run_one (VRef tbl) name h =
  (Normal tt, <[ruleDefs := own_set (obj_at h ruleDefs) name impl]> h).
Proof.
  intros Hs Hp Hr Hi. unfold load_one.
  rewrite indexOf_gt_has, Hs. unfold bind, try_catch.
  unfold Get at 1, read. rewrite Hp, Hr, Hi. reflexivity.
Qed.

(** The plugin branch, when the package is not a key of the table. *)
Lemma load_one_absent (name : string) (tbl : loc) (h : heap) :
  has "/" name = true ->
  own_get (obj_at h tbl) (SOLIUM_PLUGIN_PREFIX +:+ at_ (split "/" name) 0) = None ->
  run_one (VRef tbl) name h =
  (Abrupt (TypeError (ReadProperty VUndefined "rules")), h).
Proof.
  intros Hs Hp. unfold load_one.
  rewrite indexOf_gt_has, Hs. unfold bind, try_catch.
  unfold Get at 1, read. rewrite Hp, plugin_package_not_inherited. reflexivity.
Qed.

(** The handler of the plugin branch runs only when there is no table. *)
Lemma load_one_no_table (name : string) (h : heap) :
  has "/" name = true ->
  run_one VUndefined name h =
  (Abrupt (Error (unable_to_load_plugin
                    (SOLIUM_PLUGIN_PREFIX +:+ at_ (split "/" name) 0))), h).
Proof.
  intros Hs. unfold load_one.
  rewrite indexOf_gt_has, Hs. reflexivity.
Qed.

(** One entry changes the store by at most the registry's property of
    its own name. *)
Lemma load_one_effect (plugins : value) (name : string) (h : heap) :
  snd (run_one plugins name h) = h \/
  exists v, snd (run_one plugins name h) =
            <[ruleDefs := own_set (obj_at h ruleDefs) name v]> h.
Proof.
  unfold load_one.
  destruct (indexOf "/" name >? -1)%Z; [|left; reflexivity].
  unfold bind, try_catch.
  destruct (Get plugins _ h) as [[plugin|e] h1] eqn:E1;
    pose proof (Get_store plugins (SOLIUM_PLUGIN_PREFIX +:+ at_ (split "/" name) 0) h) as S1;
    rewrite E1 in S1; simpl in S1; subst h1; [|left; reflexivity].
  destruct (Get plugin "rules" h) as [[rules|e] h1] eqn:E2;
    pose proof (Get_store plugin "rules" h) as S2;
    rewrite E2 in S2; simpl in S2; subst h1; [|left; reflexivity].
  destruct (Get rules _ h) as [[impl|e] h1] eqn:E3;
    pose proof (Get_store rules (at_ (split "/" name) 1) h) as S3;
    rewrite E3 in S3; simpl in S3; subst h1; [|left; reflexivity].
  right. exists impl. reflexivity.
Qed.

Lemma load_one_frame (plugins : value) (name k : string) (h : heap) :
  k <> name ->
  own_get (obj_at (snd (run_one plugins name h)) ruleDefs) k = own_get (obj_at h ruleDefs) k.
Proof.
  intros Hne. destruct (load_one_effect plugins name h) as [-> | [v ->]]; [reflexivity|].
  rewrite obj_at_insert_eq. apply own_get_set_ne. congruence.
Qed.

(** Whatever happens, also on a throw, [load] touches only the registry
    entries of the names it was given. *)
Lemma load_frame (listOfRules : list string) (plugins : value) (h : heap) (k : string) :
  ~ In k listOfRules ->
  own_get (obj_at (snd (run listOfRules plugins h)) ruleDefs) k = own_get (obj_at h ruleDefs) k.
Proof.
  revert h. induction listOfRules as [|name rest IH]; intros h Hk; [reflexivity|].
  rewrite load_cons.
  assert (k <> name) as Hne by (intros ->; apply Hk; left; reflexivity).
  pose proof (load_one_frame plugins name k h Hne) as F.
  destruct (run_one plugins name h) as [[[]|e] h1]; simpl in F.
  - rewrite IH; [exact F | intros Hin; apply Hk; right; exact Hin].
  - exact F.
Qed.

End LoadFacts.

Lemma core_rule_names_bare (name : string) :
  In name core_rule_names -> has "/" name = false.
Proof.
  assert (forallb (fun n => negb (has "/" n)) core_rule_names = true) as H
    by (vm_compute; reflexivity).
  rewrite forallb_forall in H. intros Hin. specialize (H name Hin).
  destruct (has "/" name); [discriminate | reflexivity].
Qed.

Lemma ruleDefs_literal_get (required : string -> value) (name : string) :
  In name core_rule_names ->
  own_get (ruleDefs_literal required) name = Some (required ("../rules/" +:+ name)).
Proof.
  unfold ruleDefs_literal. induction core_rule_names as [|n l IH]; simpl; [tauto|].
  intros [-> | Hin].
  - rewrite String.eqb_refl. reflexivity.
  - destruct (String.eqb n name) eqn:E; [|exact (IH Hin)].
    apply String.eqb_eq in E. subst n. reflexivity.
Qed.

(** ** The claims about [load] *)

(** C1 (as the claim states it, refuted). [load(["unknown-core-rule"], {})]
    does not fail: on the store holding the registry literal and an empty
    plugin table it returns the registry and leaves the store as it was.
    [load] takes no [require] at all, so this holds whatever the host would
    answer for the path of that rule. *)
Lemma unknown_core_rule_load_returns :
  load Examples.posix_join Examples.registry
       ["unknown-core-rule"] (VRef Examples.table) Examples.store
  = (Normal (VRef Examples.registry), Examples.store)
  /\ ~ (exists e h',
          load Examples.posix_join Examples.registry
               ["unknown-core-rule"] (VRef Examples.table) Examples.store
          = (Abrupt e, h')).
Proof.
  assert (load Examples.posix_join Examples.registry
               ["unknown-core-rule"] (VRef Examples.table) Examples.store
          = (Normal (VRef Examples.registry), Examples.store)) as E
    by (rewrite load_bare_head by reflexivity; apply load_nil).
  split; [exact E|]. intros (e & h' & H). rewrite E in H. discriminate.
Qed.

(** C1 (amended). A bare name, known to the catalog or not, never makes
    [load] fail: [load([name], plugins)] returns the registry with the store
    unchanged, so no entry is added, and in a longer list the names after
    it are resolved as if it were not there. *)
Theorem load_bare_name_is_skipped
    (path_join : string -> string -> string) (ruleDefs : loc)
    (name : string) (rest : list string) (plugins : value) (h : heap) :
  has "/" name = false ->
  load path_join ruleDefs [name] plugins h = (Normal (VRef ruleDefs), h)
  /\ load path_join ruleDefs (name :: rest) plugins h
     = load path_join ruleDefs rest plugins h.
Proof.
  intros H. split.
  - rewrite load_bare_head by exact H. apply load_nil.
  - apply load_bare_head. exact H.
Qed.

Lemma load_bare_name_is_skipped_witness :
  has "/" "unknown-core-rule" = false
  /\ load Examples.posix_join Examples.registry ["unknown-core-rule"]
          (VRef Examples.table) Examples.store_with_plugin
     = (Normal (VRef Examples.registry), Examples.store_with_plugin)
  /\ load Examples.posix_join Examples.registry
          ["unknown-core-rule"; "pluginA/ruleB"]
          (VRef Examples.table) Examples.store_with_plugin
     = load Examples.posix_join Examples.registry ["pluginA/ruleB"]
            (VRef Examples.table) Examples.store_with_plugin.
Proof.
  split; [reflexivity|].
  apply (load_bare_name_is_skipped Examples.posix_join Examples.registry
           "unknown-core-rule" ["pluginA/ruleB"]
           (VRef Examples.table) Examples.store_with_plugin).
  reflexivity.
Defined.

(** C2. [load(["pluginA/ruleB"], {})] with the plugin absent from the
    table: the lookup in the [try] block yields [undefined] without
    throwing, the handler that would name solium-plugin-pluginA is never
    entered, and the read of [rules] raises a [TypeError]; the registry has
    no entry for the name afterwards. *)
Theorem absent_plugin_load_raises_type_error :
  load Examples.posix_join Examples.registry
       ["pluginA/ruleB"] (VRef Examples.table) Examples.store
  = (Abrupt (TypeError (ReadProperty VUndefined "rules")), Examples.store)
  /\ own_get (obj_at Examples.store Examples.registry) "pluginA/ruleB" = None
  /\ load Examples.posix_join Examples.registry
          ["pluginA/ruleB"] VUndefined Examples.store
     = (Abrupt (Error (unable_to_load_plugin "solium-plugin-pluginA")), Examples.store).
Proof.
  split; [|split].
  - rewrite load_cons, load_one_absent; reflexivity.
  - reflexivity.
  - rewrite load_cons, load_one_no_table; reflexivity.
Qed.

(** C7. For a name of the catalog, [load([name], plugins)] returns the
    registry and changes nothing in the store: the binding seeded by the
    literal is still there with the same value, a second call behaves as
    the first, and for any list whatever [load] leaves every registry entry
    whose key is not in the list as it was. *)
Theorem core_rule_load_keeps_binding
    (path_join : string -> string -> string) (ruleDefs : loc) (name : string) :
  In name core_rule_names ->
  (forall plugins h,
      load path_join ruleDefs [name] plugins h = (Normal (VRef ruleDefs), h))
  /\ (forall required plugins h,
         obj_at h ruleDefs = ruleDefs_literal required ->
         own_get (obj_at (snd (load path_join ruleDefs [name] plugins h)) ruleDefs) name
         = Some (required ("../rules/" +:+ name)))
  /\ (forall plugins h,
         load path_join ruleDefs [name] plugins
              (snd (load path_join ruleDefs [name] plugins h))
         = load path_join ruleDefs [name] plugins h)
  /\ (forall listOfRules plugins h k,
         ~ In k listOfRules ->
         own_get (obj_at (snd (load path_join ruleDefs listOfRules plugins h)) ruleDefs) k
         = own_get (obj_at h ruleDefs) k).
Proof.
  intros Hin. pose proof (core_rule_names_bare name Hin) as Hb.
  assert (forall plugins h,
             load path_join ruleDefs [name] plugins h = (Normal (VRef ruleDefs), h)) as E
    by (intros; rewrite load_bare_head by exact Hb; apply load_nil).
  split; [exact E|]. split; [|split].
  - intros required plugins h Hh. rewrite E. simpl. rewrite Hh.
    apply ruleDefs_literal_get. exact Hin.
  - intros plugins h. rewrite !E. reflexivity.
  - intros. apply load_frame. assumption.
Qed.

Lemma core_rule_load_keeps_binding_witness :
  In "emit" core_rule_names
  /\ load Examples.posix_join Examples.registry ["emit"]
          (VRef Examples.table) Examples.store
     = (Normal (VRef Examples.registry), Examples.store).
Proof.
  assert (In "emit" core_rule_names) as Hin by (vm_compute; tauto).
  split; [exact Hin|].
  apply (core_rule_load_keeps_binding Examples.posix_join Examples.registry "emit" Hin).
Defined.

(** C3. For a name with a slash whose plugin package is a key of the
    table, [load([name], plugins)] stores under the full name whatever
    [plugin.rules[ruleName]] evaluates to, be it an object, [undefined] or
    anything else, and returns the registry.  The value stored is the very
    reference found in the plugin, not a copy. *)
Theorem load_binds_plugin_rule
    (path_join : string -> string -> string) (ruleDefs : loc)
    (name : string) (tbl : loc) (h : heap) (plugin rules impl : value) :
  has "/" name = true ->
  own_get (obj_at h tbl) (SOLIUM_PLUGIN_PREFIX +:+ at_ (split "/" name) 0) = Some plugin ->
  Get plugin "rules" h = (Normal rules, h) ->
  Get rules (at_ (split "/" name) 1) h = (Normal impl, h) ->
  load path_join ruleDefs [name] (VRef tbl) h
  = (Normal (VRef ruleDefs), <[ruleDefs := own_set (obj_at h ruleDefs) name impl]> h)
  /\ own_get (obj_at (snd (load path_join ruleDefs [name] (VRef tbl) h)) ruleDefs) name
     = Some impl.
Proof.
  intros Hs Hp Hr Hi.
  assert (load path_join ruleDefs [name] (VRef tbl) h
          = (Normal (VRef ruleDefs),
             <[ruleDefs := own_set (obj_at h ruleDefs) name impl]> h)) as E.
  { rewrite load_cons, (load_one_plugin _ _ _ _ _ _ _ _ Hs Hp Hr Hi). apply load_nil. }
  split; [exact E|]. rewrite E. simpl.
  rewrite obj_at_insert_eq. apply own_get_set_eq.
Qed.

Lemma load_binds_plugin_rule_witness :
  has "/" "pluginA/ruleB" = true
  /\ own_get (obj_at (snd (load Examples.posix_join Examples.registry ["pluginA/ruleB"]
                                (VRef Examples.table) Examples.store_with_plugin))
                     Examples.registry) "pluginA/ruleB"
     = Some (VRef Examples.impl).
Proof.
  split; [reflexivity|].
  apply (load_binds_plugin_rule Examples.posix_join Examples.registry
           "pluginA/ruleB" Examples.table Examples.store_with_plugin
           (VRef Examples.pluginA) (VRef Examples.pluginA_rules) (VRef Examples.impl));
    reflexivity.
Defined.



Example load_extra_segments_example :
  load Examples.posix_join Examples.registry ["pluginA/ruleB/extra/more"]
       (VRef Examples.table) Examples.store_with_plugin
  = (Normal (VRef Examples.registry),
     <[Examples.registry :=
         own_set (obj_at Examples.store_with_plugin Examples.registry)
                 "pluginA/ruleB/extra/more" (VRef Examples.impl)]>
       Examples.store_with_plugin).
Proof. vm_compute. reflexivity. Qed.

(** ** [resolveUpstream] *)

Lemma strip_prefix_Some (p s rest : string) :
  strip_prefix p s = Some rest -> s = p +:+ rest.
Proof.
  revert s. induction p as [|a p IH]; intros s; simpl.
  - intros H. injection H as ->. reflexivity.
  - destruct s as [|b s]; [discriminate|].
    destruct (Ascii.eqb a b) eqn:E; [|discriminate].
    apply Ascii.eqb_eq in E. subst b. intros H.
    change (String a s = String a (p +:+ rest)). rewrite (IH s H). reflexivity.
Qed.

Lemma lower_or_underscore_no_colon (s : string) :
  all_chars lower_or_underscore s = true -> has ":" s = false.
Proof.
  induction s as [|a s IH]; simpl; [reflexivity|].
  intros H. apply andb_true_iff in H as [Ha Hs]. rewrite (IH Hs), orb_false_r.
  destruct (Ascii.eqb a ":") eqn:E; [|reflexivity].
  apply Ascii.eqb_eq in E. subst a. discriminate.
Qed.

(** What matches the pattern is solium, a colon, and an identifier without
    a colon, which is therefore the second segment of the split. *)
Lemma coreRulesetRegExp_shape (s : string) :
  coreRulesetRegExp_test s = true ->
  exists id,
    s = "solium:" +:+ id /\ id <> EmptyString
    /\ all_chars lower_or_underscore id = true
    /\ at_ (split ":" s) 1 = id.
Proof.
  unfold coreRulesetRegExp_test.
  destruct (strip_prefix "solium:" s) as [rest|] eqn:E; [|discriminate].
  apply strip_prefix_Some in E. destruct rest as [|a rest]; [discriminate|].
  intros H. exists (String a rest). repeat split; [exact E | discriminate | exact H |].
  rewrite E.
  change ("solium:" +:+ String a rest) with ("solium" +:+ String ":" (String a rest)).
  rewrite split_at_first by reflexivity.
  rewrite split_without by (apply lower_or_underscore_no_colon; exact H).
  reflexivity.
Qed.

Section UpstreamFacts.

Variable require : string -> M value.
Variable isAValidSharableConfig : value -> M bool.
Variable inspect_errors : M string.
Variable type_fault_message : type_fault -> string.

Local Abbreviation resolve :=
  (resolveUpstream require isAValidSharableConfig inspect_errors type_fault_message).

Lemma resolve_core (upstream : string) (h : heap) :
  coreRulesetRegExp_test upstream = true ->
  resolve upstream h =
  try_catch
    (exports <- require ("../../config/rulesets/solium-" +:+ at_ (split ":" upstream) 1) ;;
     Get exports "rules")
    (fun _ => throw (Error (not_a_core_ruleset upstream))) h.
Proof. intros H. unfold resolveUpstream. rewrite H. reflexivity. Qed.

Lemma resolve_sharable (upstream : string) (h : heap) :
  coreRulesetRegExp_test upstream = false ->
  resolve upstream h =
  (config <- try_catch (require (SOLIUM_SHARABLE_CONFIG_PREFIX +:+ upstream))
               (fun e =>
                  if decide (exn_code e = Some "MODULE_NOT_FOUND")
                  then throw (Error (not_installed (SOLIUM_SHARABLE_CONFIG_PREFIX +:+ upstream)))
                  else throw (Error (could_not_be_loaded
                                       (SOLIUM_SHARABLE_CONFIG_PREFIX +:+ upstream)
                                       (exn_message type_fault_message e)))) ;;
   valid <- isAValidSharableConfig config ;;
   if (valid : bool) then Get config "rules"
   else
     detail <- inspect_errors ;;
     throw (Error (invalid_sharable_config
                     (SOLIUM_SHARABLE_CONFIG_PREFIX +:+ upstream) detail))) h.
Proof. intros H. unfold resolveUpstream. rewrite H. reflexivity. Qed.

End UpstreamFacts.

Ltac reassociate := rewrite ?append_assoc; reflexivity.


Lemma not_installed_mentions (configName : string) :
  occurs_in ("npm install -g " +:+ configName) (not_installed configName)
  /\ occurs_in ("npm install --save-dev " +:+ configName) (not_installed configName).
Proof.
  split.
  - exists ("The sharable config " +:+ dq +:+ configName +:+ dq +:+ " is not installed. " +:+
            "If Solium is installed globally, install the config globally using " +:+ dq),
           (dq +:+ ". Else install locally using " +:+
            dq +:+ "npm install --save-dev " +:+ configName +:+ dq +:+ ".").
    unfold not_installed. reassociate.
  - exists ("The sharable config " +:+ dq +:+ configName +:+ dq +:+ " is not installed. " +:+
            "If Solium is installed globally, install the config globally using " +:+
            dq +:+ "npm install -g " +:+ configName +:+ dq +:+
            ". Else install locally using " +:+ dq),
           (dq +:+ ".").
    unfold not_installed. reassociate.
Qed.

Lemma append_nil_r (s : string) : s +:+ EmptyString = s.
Proof.
  induction s as [|a s IH]; [reflexivity|].
  change (String a (s +:+ EmptyString) = String a s). rewrite IH. reflexivity.
Qed.

Lemma occurs_in_end (pre s : string) : occurs_in s (pre +:+ s).
Proof. exists pre, EmptyString. rewrite append_nil_r. reflexivity. Qed.

Lemma could_not_be_loaded_mentions (configName message : string) :
  occurs_in message (could_not_be_loaded configName message).
Proof.
  unfold could_not_be_loaded. rewrite <- !append_assoc. apply occurs_in_end.
Qed.

Lemma invalid_sharable_config_mentions (configName detail : string) :
  occurs_in detail (invalid_sharable_config configName detail).
Proof.
  unfold invalid_sharable_config. rewrite <- !append_assoc. apply occurs_in_end.
Qed.



Example resolveUpstream_all_example :
  resolveUpstream Examples.host_require Examples.host_validator
                  Examples.host_inspect Examples.host_fault_message
                  "solium:all" Examples.store_with_ruleset
  = (Normal (VRef Examples.ruleset_all_rules), Examples.store_with_ruleset)
  /\ resolveUpstream Examples.host_require Examples.host_validator
                     Examples.host_inspect Examples.host_fault_message
                     "solium:none" Examples.store_with_ruleset
     = (Abrupt (Error (not_a_core_ruleset "solium:none")), Examples.store_with_ruleset).
Proof. split; vm_compute; reflexivity. Qed.

(** C5. A reference that does not match the pattern is required under the
    name made of the prefix solium-config- and the reference.  A throw
    whose code is MODULE_NOT_FOUND becomes the error that gives both
    install commands for that name; any other throw becomes the error
    whose message ends with the message of what was thrown (for a
    [TypeError], the text the engine gave it); a config the validator
    accepts gives its [rules]; a config it rejects becomes the error whose
    message ends with the rendering of the validator's errors. *)
Theorem resolveUpstream_sharable_config
    (require : string -> M value) (isAValidSharableConfig : value -> M bool)
    (inspect_errors : M string) (type_fault_message : type_fault -> string)
    (upstream : string) :
  coreRulesetRegExp_test upstream = false ->
  (forall h,
      match require (SOLIUM_SHARABLE_CONFIG_PREFIX +:+ upstream) h with
      | (Abrupt e, h1) =>
          resolveUpstream require isAValidSharableConfig inspect_errors
                          type_fault_message upstream h
          = (Abrupt (Error
                       match e with
                       | HostError (Some code) message =>
                           if String.eqb code "MODULE_NOT_FOUND"
                           then not_installed (SOLIUM_SHARABLE_CONFIG_PREFIX +:+ upstream)
                           else "The sharable config " +:+ dq +:+
                                (SOLIUM_SHARABLE_CONFIG_PREFIX +:+ upstream) +:+ dq +:+
                                " could not be loaded: " +:+ message
                       | HostError None message | Error message =>
                           "The sharable config " +:+ dq +:+
                           (SOLIUM_SHARABLE_CONFIG_PREFIX +:+ upstream) +:+ dq +:+
                           " could not be loaded: " +:+ message
                       | TypeError fault =>
                           "The sharable config " +:+ dq +:+
                           (SOLIUM_SHARABLE_CONFIG_PREFIX +:+ upstream) +:+ dq +:+
                           " could not be loaded: " +:+ type_fault_message fault
                       end), h1)
      | (Normal config, h1) =>
          match isAValidSharableConfig config h1 with
          | (Normal true, h2) =>
              resolveUpstream require isAValidSharableConfig inspect_errors
                              type_fault_message upstream h
              = Get config "rules" h2
          | (Normal false, h2) =>
              match inspect_errors h2 with
              | (Normal detail, h3) =>
                  resolveUpstream require isAValidSharableConfig inspect_errors
                                  type_fault_message upstream h
                  = (Abrupt (Error (invalid_sharable_config
                                      (SOLIUM_SHARABLE_CONFIG_PREFIX +:+ upstream) detail)), h3)
              | (Abrupt e, h3) =>
                  resolveUpstream require isAValidSharableConfig inspect_errors
                                  type_fault_message upstream h
                  = (Abrupt e, h3)
              end
          | (Abrupt e, h2) =>
              resolveUpstream require isAValidSharableConfig inspect_errors
                              type_fault_message upstream h
              = (Abrupt e, h2)
          end
      end)
  /\ occurs_in ("npm install -g " +:+ SOLIUM_SHARABLE_CONFIG_PREFIX +:+ upstream)
               (not_installed (SOLIUM_SHARABLE_CONFIG_PREFIX +:+ upstream))
  /\ occurs_in ("npm install --save-dev " +:+ SOLIUM_SHARABLE_CONFIG_PREFIX +:+ upstream)
               (not_installed (SOLIUM_SHARABLE_CONFIG_PREFIX +:+ upstream))
  /\ (forall message,
         occurs_in message
           ("The sharable config " +:+ dq +:+
            (SOLIUM_SHARABLE_CONFIG_PREFIX +:+ upstream) +:+ dq +:+
            " could not be loaded: " +:+ message))
  /\ (forall detail,
         occurs_in detail
           (invalid_sharable_config (SOLIUM_SHARABLE_CONFIG_PREFIX +:+ upstream) detail)).
Proof.
  intros Hm. split; [|split; [|split; [|split]]].
  - intros h. rewrite resolve_sharable by exact Hm.
    unfold bind, try_catch, throw.
    destruct (require _ h) as [[config|e] h1].
    + destruct (isAValidSharableConfig config h1) as [[[|]|e] h2]; [reflexivity| |reflexivity].
      destruct (inspect_errors h2) as [[detail|e] h3]; reflexivity.
    + destruct e as [m|f|[c|] m]; simpl;
        try (destruct (decide (None = Some "MODULE_NOT_FOUND")); [discriminate | reflexivity]).
      destruct (String.eqb c "MODULE_NOT_FOUND") eqn:E;
        destruct (decide (Some c = Some "MODULE_NOT_FOUND")) as [D|D]; try reflexivity.
      * apply String.eqb_eq in E. subst c. contradiction.
      * injection D as ->. rewrite String.eqb_refl in E. discriminate.
  - apply not_installed_mentions.
  - apply not_installed_mentions.
  - intros. apply (could_not_be_loaded_mentions (SOLIUM_SHARABLE_CONFIG_PREFIX +:+ upstream)).
  - intros. apply invalid_sharable_config_mentions.
Qed.

(** The four outcomes on a concrete host: a package that is not
    installed, a module that throws while loading, a config the validator
    accepts and a config it rejects. *)
Lemma resolveUpstream_sharable_config_witness :
  coreRulesetRegExp_test "standard" = false
  /\ coreRulesetRegExp_test "broken" = false
  /\ coreRulesetRegExp_test "good" = false
  /\ coreRulesetRegExp_test "bad" = false
  /\ resolveUpstream Examples.sharable_require Examples.host_validator
                     Examples.host_inspect Examples.host_fault_message
                     "standard" Examples.store_with_ruleset
     = (Abrupt (Error
                  ("The sharable config " +:+ dq +:+ "solium-config-standard" +:+ dq +:+
                   " is not installed. If Solium is installed globally, " +:+
                   "install the config globally using " +:+
                   dq +:+ "npm install -g solium-config-standard" +:+ dq +:+
                   ". Else install locally using " +:+
                   dq +:+ "npm install --save-dev solium-config-standard" +:+ dq +:+ ".")),
        Examples.store_with_ruleset)
  /\ resolveUpstream Examples.sharable_require Examples.host_validator
                     Examples.host_inspect Examples.host_fault_message
                     "broken" Examples.store_with_ruleset
     = (Abrupt (Error
                  ("The sharable config " +:+ dq +:+ "solium-config-broken" +:+ dq +:+
                   " could not be loaded: Unexpected token")),
        Examples.store_with_ruleset)
  /\ resolveUpstream Examples.sharable_require Examples.host_validator
                     Examples.host_inspect Examples.host_fault_message
                     "good" Examples.store_with_ruleset
     = (Normal (VRef Examples.ruleset_all_rules), Examples.store_with_ruleset)
  /\ resolveUpstream Examples.sharable_require Examples.host_validator
                     Examples.host_inspect Examples.host_fault_message
                     "bad" Examples.store_with_ruleset
     = (Abrupt (Error
                  ("Invalid sharable config " +:+ dq +:+ "solium-config-bad" +:+ dq +:+
                   ". AJV message:" +:+ lf +:+ "[ { keyword: 'required' } ]")),
        Examples.store_with_ruleset).
Proof.
  do 4 (split; [reflexivity|]).
  split; [|split; [|split]].
  - exact (proj1 (resolveUpstream_sharable_config Examples.sharable_require
                    Examples.host_validator Examples.host_inspect
                    Examples.host_fault_message "standard" eq_refl)
                 Examples.store_with_ruleset).
  - exact (proj1 (resolveUpstream_sharable_config Examples.sharable_require
                    Examples.host_validator Examples.host_inspect
                    Examples.host_fault_message "broken" eq_refl)
                 Examples.store_with_ruleset).
  - etransitivity.
    + exact (proj1 (resolveUpstream_sharable_config Examples.sharable_require
                      Examples.host_validator Examples.host_inspect
                      Examples.host_fault_message "good" eq_refl)
                   Examples.store_with_ruleset).
    + vm_compute. reflexivity.
  - exact (proj1 (resolveUpstream_sharable_config Examples.sharable_require
                    Examples.host_validator Examples.host_inspect
                    Examples.host_fault_message "bad" eq_refl)
                 Examples.store_with_ruleset).
Defined.

(** C9. The two exported ruleset constants are the same string, so
    resolving the recommended ruleset is resolving the ruleset all: the
    same module path is required and the same [rules] come back. *)
Theorem recommended_ruleset_is_all :
  SOLIUM_RULESET_ALL = "solium:all"
  /\ SOLIUM_RULESET_RECOMMENDED = "solium:all"
  /\ forall (require : string -> M value) (isAValidSharableConfig : value -> M bool)
            (inspect_errors : M string) (type_fault_message : type_fault -> string)
            (h : heap),
       resolveUpstream require isAValidSharableConfig inspect_errors
                       type_fault_message SOLIUM_RULESET_RECOMMENDED h
       = resolveUpstream require isAValidSharableConfig inspect_errors
                         type_fault_message SOLIUM_RULESET_ALL h
       /\ resolveUpstream require isAValidSharableConfig inspect_errors
                          type_fault_message SOLIUM_RULESET_RECOMMENDED h
          = try_catch
              (exports <- require "../../config/rulesets/solium-all" ;;
               Get exports "rules")
              (fun _ => throw (Error (not_a_core_ruleset "solium:all"))) h.
Proof.
  split; [reflexivity|]. split; [reflexivity|].
  intros. split; reflexivity.
Qed.

(** ** [resolvePluginConfig] *)

Lemma Get_object (h : heap) (v : value) (o : object) (k : string) :
  as_object h v = Some o -> Get v k h = (Normal (read o k), h).
Proof.
  destruct v; simpl; try discriminate. intros H.
  unfold Get, obj_at. rewrite H. reflexivity.
Qed.

(** Objects of a store are still there, unchanged, in a larger store. *)
Lemma as_object_weaken (h h' : heap) (v : value) (o : object) :
  h ⊆ h' -> as_object h v = Some o -> as_object h' v = Some o.
Proof.
  intros Hsub. destruct v; simpl; try discriminate.
  intros H. exact (lookup_weaken _ _ _ _ H Hsub).
Qed.

Lemma declared_type_weaken (h h' : heap) (rule t : value) :
  h ⊆ h' -> declared_type h rule = Some t -> declared_type h' rule = Some t.
Proof.
  intros Hsub. unfold declared_type.
  destruct (as_object h rule) as [ro|] eqn:E1; [|discriminate].
  rewrite (as_object_weaken _ _ _ _ Hsub E1).
  destruct (as_object h (read ro "meta")) as [mo|] eqn:E2; [|discriminate].
  rewrite (as_object_weaken _ _ _ _ Hsub E2).
  destruct (as_object h (read mo "docs")) as [d|] eqn:E3; [|discriminate].
  rewrite (as_object_weaken _ _ _ _ Hsub E3). trivial.
Qed.

Lemma plugin_rules_weaken (h h' : heap) (plugin : value) (ro : object) :
  h ⊆ h' -> plugin_rules h plugin = Some ro -> plugin_rules h' plugin = Some ro.
Proof.
  intros Hsub. unfold plugin_rules.
  destruct (as_object h plugin) as [po|] eqn:E1; [|discriminate].
  rewrite (as_object_weaken _ _ _ _ Hsub E1).
  apply as_object_weaken. exact Hsub.
Qed.

(** On a well-formed rule the chain of reads goes through and yields the
    declared type. *)
Lemma meta_docs_type_declared (h : heap) (plugin : value) (ro : object)
      (r : string) (rule t : value) :
  plugin_rules h plugin = Some ro ->
  own_get ro r = Some rule ->
  declared_type h rule = Some t ->
  meta_docs_type plugin r h = (Normal t, h).
Proof.
  unfold plugin_rules, declared_type, meta_docs_type, bind.
  destruct (as_object h plugin) as [po|] eqn:E0; [|discriminate]. intros E1 Hr.
  rewrite (Get_object _ _ _ _ E0), (Get_object _ _ _ _ E1).
  replace (read ro r) with rule by (unfold read; rewrite Hr; reflexivity).
  destruct (as_object h rule) as [o|] eqn:E2; [|discriminate].
  rewrite (Get_object _ _ _ _ E2).
  destruct (as_object h (read o "meta")) as [mo|] eqn:E3; [|discriminate].
  rewrite (Get_object _ _ _ _ E3).
  destruct (as_object h (read mo "docs")) as [d|] eqn:E4; [|discriminate].
  rewrite (Get_object _ _ _ _ E4). intros H. injection H as ->. reflexivity.
Qed.

Section PluginConfig.

Variable name : string.

Lemma config_key_inj (r r' : string) : config_key name r = config_key name r' -> r = r'.
Proof. intros H. apply append_inj_r in H. apply append_inj_r in H. exact H. Qed.

Lemma config_after_other (type_of : string -> value) (keys : list string)
      (cfg : object) (k : string) :
  ~ In k (map (config_key name) keys) ->
  own_get (config_after name type_of keys cfg) k = own_get cfg k.
Proof.
  revert cfg. induction keys as [|r keys IH]; intros cfg Hk; [reflexivity|].
  simpl in *. rewrite IH by tauto. apply own_get_set_ne. intros E. apply Hk. left. exact E.
Qed.

Lemma config_after_get (type_of : string -> value) (keys : list string)
      (cfg : object) (r : string) :
  In r keys ->
  own_get (config_after name type_of keys cfg) (config_key name r) = Some (type_of r).
Proof.
  revert cfg. induction keys as [|r0 keys IH]; intros cfg Hin; [destruct Hin|].
  simpl. destruct (in_dec string_dec r keys) as [Hk|Hk]; [apply IH; exact Hk|].
  destruct Hin as [->|Hin]; [|contradiction].
  rewrite config_after_other.
  - apply own_get_set_eq.
  - intros Hm. apply in_map_iff in Hm as (r' & E & Hr'). apply config_key_inj in E.
    subst r'. contradiction.
Qed.

Lemma config_after_keys (type_of : string -> value) (keys : list string) (cfg : object) :
  NoDup keys ->
  (forall r, In r keys -> ~ In (config_key name r) (own_keys cfg)) ->
  own_keys (config_after name type_of keys cfg) = (own_keys cfg ++ map (config_key name) keys)%list.
Proof.
  revert cfg. induction keys as [|r keys IH]; intros cfg Hnd Hfresh.
  - simpl. rewrite app_nil_r. reflexivity.
  - apply NoDup_cons in Hnd as [Hr Hnd]. simpl.
    rewrite IH; [|exact Hnd|].
    + rewrite own_keys_set_new by (apply Hfresh; left; reflexivity).
      rewrite <- app_assoc. reflexivity.
    + intros r' Hr'. rewrite own_keys_set_new by (apply Hfresh; left; reflexivity).
      rewrite in_app_iff. intros [Hin | [E | []]].
      * apply (Hfresh r'); [right; exact Hr' | exact Hin].
      * apply config_key_inj in E. subst r'. apply Hr.
        apply list_elem_of_In. exact Hr'.
Qed.

(** The loop of lines 76-78 on a store that holds the config object at
    [c] and, untouched since the call, the plugin. *)
Lemma forEach_rules (h : heap) (plugin : value) (ro : object) (c : loc)
      (type_of : string -> value) (keys : list string) (cfg : object) :
  h !! c = None ->
  plugin_rules h plugin = Some ro ->
  (forall r, In r keys ->
             exists rule, own_get ro r = Some rule
                          /\ declared_type h rule = Some (type_of r)) ->
  forEach keys
    (fun ruleName =>
       type <- meta_docs_type plugin ruleName ;;
       Put c (name +:+ "/" +:+ ruleName) type)
    (<[c:=cfg]> h)
  = (Normal tt, <[c:=config_after name type_of keys cfg]> h).
Proof.
  intros Hc Hp. revert cfg. induction keys as [|r keys IH]; intros cfg Hk; [reflexivity|].
  destruct (Hk r (or_introl eq_refl)) as (rule & Hr & Ht).
  assert (h ⊆ <[c:=cfg]> h) as Hsub by (apply insert_subseteq; exact Hc).
  simpl. unfold bind at 1. unfold bind at 1.
  rewrite (meta_docs_type_declared _ plugin ro r rule (type_of r)
             (plugin_rules_weaken _ _ _ _ Hsub Hp) Hr
             (declared_type_weaken _ _ _ _ Hsub Ht)).
  unfold Put. rewrite obj_at_insert_eq, insert_insert_eq.
  apply IH. intros r' Hr'. apply Hk. right. exact Hr'.
Qed.

End PluginConfig.

Lemma well_formed_rules (h : heap) (plugin : value) :
  well_formed_plugin h plugin = true ->
  exists ro,
    plugin_rules h plugin = Some ro
    /\ NoDup (own_keys ro)
    /\ forall r, In r (own_keys ro) ->
                 exists rule, own_get ro r = Some rule
                              /\ declared_type h rule = Some (type_of_rule h ro r).
Proof.
  unfold well_formed_plugin.
  destruct (plugin_rules h plugin) as [ro|]; [|discriminate].
  intros H. apply andb_true_iff in H as [Hnd Hall].
  apply bool_decide_eq_true in Hnd. rewrite forallb_forall in Hall.
  exists ro. split; [reflexivity|]. split; [exact Hnd|].
  intros r Hr. destruct (own_get ro r) as [rule|] eqn:E.
  - exists rule. split; [reflexivity|].
    assert (In (r, rule) ro) as Hin.
    { clear -E. induction ro as [|[k v] ro IH]; simpl in *; [discriminate|].
      destruct (String.eqb k r) eqn:Ek.
      - apply String.eqb_eq in Ek. injection E as ->. left. congruence.
      - right. apply IH. exact E. }
    specialize (Hall _ Hin). apply bool_decide_eq_true in Hall as [t Ht].
    unfold type_of_rule. rewrite E. simpl in *. rewrite Ht. reflexivity.
  - apply own_get_None_keys in E. contradiction.
Qed.

(** What a call on a well-formed plugin does, in full. *)
Lemma resolvePluginConfig_run (name : string) (plugin : value) (h : heap) (ro : object) :
  plugin_rules h plugin = Some ro ->
  (forall r, In r (own_keys ro) ->
             exists rule, own_get ro r = Some rule
                          /\ declared_type h rule = Some (type_of_rule h ro r)) ->
  resolvePluginConfig name plugin h
  = (Normal (VRef (fresh (dom h))),
     <[fresh (dom h) := config_after name (type_of_rule h ro) (own_keys ro) []]> h).
Proof.
  intros Hp Hk. set (c := fresh (dom h)).
  assert (h !! c = None) as Hc by (apply not_elem_of_dom, is_fresh).
  assert (h ⊆ <[c:=[]]> h) as Hsub by (apply insert_subseteq; exact Hc).
  pose proof (plugin_rules_weaken _ _ _ _ Hsub Hp) as Hp'.
  unfold resolvePluginConfig, alloc. unfold bind at 1. fold c.
  unfold plugin_rules in Hp'.
  destruct (as_object (<[c:=[]]> h) plugin) as [po|] eqn:E0; [|discriminate].
  unfold bind at 1. rewrite (Get_object _ _ _ _ E0).
  unfold bind at 1.
  assert (Object_keys (read po "rules") (<[c:=[]]> h) = (Normal (own_keys ro), <[c:=[]]> h)) as K.
  { destruct (read po "rules"); simpl in Hp'; try discriminate.
    unfold Object_keys, obj_at. rewrite Hp'. reflexivity. }
  rewrite K. unfold bind at 1.
  rewrite (forEach_rules name h plugin ro c (type_of_rule h ro) (own_keys ro) [] Hc Hp Hk).
  reflexivity.
Qed.

(** The keys [Object.keys(plugin.rules)] visits and the object the call
    leaves at the new reference. *)
Lemma resolvePluginConfig_on_well_formed (name : string) (plugin : value) (h : heap) :
  well_formed_plugin h plugin = true ->
  exists ro,
    plugin_rules h plugin = Some ro
    /\ (rules <- Get plugin "rules" ;; Object_keys rules) h = (Normal (own_keys ro), h)
    /\ resolvePluginConfig name plugin h
       = (Normal (VRef (fresh (dom h))),
          <[fresh (dom h) := config_after name (type_of_rule h ro) (own_keys ro) []]> h)
    /\ own_keys (config_after name (type_of_rule h ro) (own_keys ro) [])
       = map (fun ruleName => name +:+ "/" +:+ ruleName) (own_keys ro).
Proof.
  intros Hwf. destruct (well_formed_rules h plugin Hwf) as (ro & Hp & Hnd & Hk).
  exists ro. split; [exact Hp|]. split; [|split].
  - unfold plugin_rules in Hp.
    destruct (as_object h plugin) as [po|] eqn:E0; [|discriminate].
    unfold bind. rewrite (Get_object _ _ _ _ E0).
    destruct (read po "rules"); simpl in Hp; try discriminate.
    unfold Object_keys, obj_at. rewrite Hp. reflexivity.
  - apply resolvePluginConfig_run; assumption.
  - rewrite config_after_keys; [reflexivity | exact Hnd | intros ? _ []].
Qed.

(** What the two shape functions say, in terms of the store alone. *)
Lemma as_object_inv (h : heap) (v : value) (o : object) :
  as_object h v = Some o -> exists l, v = VRef l /\ h !! l = Some o.
Proof. destruct v; simpl; try discriminate. intros H. exists l. split; [reflexivity | exact H]. Qed.

Lemma read_object_inv (h : heap) (o o' : object) (k : string) :
  as_object h (read o k) = Some o' ->
  exists l, own_get o k = Some (VRef l) /\ h !! l = Some o'.
Proof.
  intros H. apply as_object_inv in H as (l & E & Hl). exists l. split; [|exact Hl].
  unfold read in E. destruct (own_get o k) as [x|]; [rewrite E; reflexivity|].
  unfold inherited in E. destruct (existsb _ _); discriminate.
Qed.

Lemma plugin_rules_inv (h : heap) (plugin : value) (ro : object) :
  plugin_rules h plugin = Some ro ->
  exists pl po rl,
    plugin = VRef pl /\ h !! pl = Some po
    /\ own_get po "rules" = Some (VRef rl) /\ h !! rl = Some ro.
Proof.
  unfold plugin_rules. destruct (as_object h plugin) as [po|] eqn:E; [|discriminate].
  apply as_object_inv in E as (pl & -> & Hpl). intros H.
  apply read_object_inv in H as (rl & Hr & Hrl). exists pl, po, rl. tauto.
Qed.

Lemma declared_type_inv (h : heap) (rule type : value) :
  declared_type h rule = Some type ->
  exists x xo m mo d do_,
    rule = VRef x /\ h !! x = Some xo
    /\ own_get xo "meta" = Some (VRef m) /\ h !! m = Some mo
    /\ own_get mo "docs" = Some (VRef d) /\ h !! d = Some do_
    /\ type = match own_get do_ "type" with Some t => t | None => VUndefined end.
Proof.
  unfold declared_type.
  destruct (as_object h rule) as [xo|] eqn:E1; [|discriminate].
  destruct (as_object h (read xo "meta")) as [mo|] eqn:E2; [|discriminate].
  destruct (as_object h (read mo "docs")) as [do_|] eqn:E3; [|discriminate].
  intros H. injection H as <-.
  apply as_object_inv in E1 as (x & -> & Hx).
  apply read_object_inv in E2 as (m & Hm & Hmo).
  apply read_object_inv in E3 as (d & Hd & Hdo).
  exists x, xo, m, mo, d, do_. repeat (split; [assumption || reflexivity|]).
  unfold read. destruct (own_get do_ "type"); reflexivity.
Qed.

(** C6. On a plugin of the expected shape, [resolvePluginConfig(name,
    plugin)] returns a new object, at a reference the store did not hold,
    and changes no object the store held.  The keys of the new object are
    the keys of the object [plugin.rules], in order, each prefixed with the
    name and a slash, and nothing else; the value under each is the [type]
    found in the store under the [docs] of the [meta] of that rule, which
    is also what [plugin.rules[ruleName].meta.docs.type] evaluates to. *)
Theorem resolvePluginConfig_copies_types (name : string) (plugin : value) (h : heap) :
  well_formed_plugin h plugin = true ->
  exists ro cfg,
    plugin_rules h plugin = Some ro
    /\ (exists pl po rl,
           plugin = VRef pl /\ h !! pl = Some po
           /\ own_get po "rules" = Some (VRef rl) /\ h !! rl = Some ro)
    /\ (rules <- Get plugin "rules" ;; Object_keys rules) h = (Normal (own_keys ro), h)
    /\ resolvePluginConfig name plugin h
       = (Normal (VRef (fresh (dom h))), <[fresh (dom h) := cfg]> h)
    /\ h !! fresh (dom h) = None
    /\ (forall l o, h !! l = Some o -> (<[fresh (dom h) := cfg]> h) !! l = Some o)
    /\ own_keys cfg = map (fun ruleName => name +:+ "/" +:+ ruleName) (own_keys ro)
    /\ forall ruleName,
         In ruleName (own_keys ro) ->
         exists rule type,
           own_get ro ruleName = Some rule
           /\ declared_type h rule = Some type
           /\ (exists x xo m mo d do_,
                  rule = VRef x /\ h !! x = Some xo
                  /\ own_get xo "meta" = Some (VRef m) /\ h !! m = Some mo
                  /\ own_get mo "docs" = Some (VRef d) /\ h !! d = Some do_
                  /\ type = match own_get do_ "type" with
                            | Some t => t
                            | None => VUndefined
                            end)
           /\ meta_docs_type plugin ruleName h = (Normal type, h)
           /\ own_get cfg (name +:+ "/" +:+ ruleName) = Some type.
Proof.
  intros Hwf.
  destruct (resolvePluginConfig_on_well_formed name plugin h Hwf)
    as (ro & Hp & Hkeys & Hrun & Hcfg).
  destruct (well_formed_rules h plugin Hwf) as (ro' & Hp' & _ & Hk).
  rewrite Hp in Hp'. injection Hp' as <-.
  assert (h !! fresh (dom h) = None) as Hc by (apply not_elem_of_dom, is_fresh).
  exists ro, (config_after name (type_of_rule h ro) (own_keys ro) []).
  split; [exact Hp|]. split; [exact (plugin_rules_inv h plugin ro Hp)|].
  split; [exact Hkeys|]. split; [exact Hrun|]. split; [exact Hc|].
  split; [|split; [exact Hcfg|]].
  - intros l o Hl. rewrite lookup_insert_ne; [exact Hl|].
    intros <-. rewrite Hc in Hl. discriminate.
  - intros r Hr. destruct (Hk r Hr) as (rule & Hrule & Ht).
    exists rule, (type_of_rule h ro r). split; [exact Hrule|]. split; [exact Ht|].
    split; [exact (declared_type_inv h rule _ Ht)|]. split.
    + exact (meta_docs_type_declared h plugin ro r rule _ Hp Hrule Ht).
    + apply config_after_get. exact Hr.
Qed.

(** The call of the specification, derived from the theorem: the plugin
    foo with the one rule bar of type security gives exactly the object
    with the one property foo/bar, of value security. *)
Lemma resolvePluginConfig_copies_types_witness :
  well_formed_plugin Examples.store_with_plugin (VRef Examples.foo) = true
  /\ resolvePluginConfig "foo" (VRef Examples.foo) Examples.store_with_plugin
     = (Normal (VRef (fresh (dom Examples.store_with_plugin))),
        <[fresh (dom Examples.store_with_plugin) := [("foo/bar", VStr "security")]]>
          Examples.store_with_plugin).
Proof.
  assert (well_formed_plugin Examples.store_with_plugin (VRef Examples.foo) = true) as H
    by (vm_compute; reflexivity).
  split; [exact H|].
  destruct (resolvePluginConfig_copies_types "foo" (VRef Examples.foo)
              Examples.store_with_plugin H)
    as (ro & cfg & Hp & _ & _ & Hrun & _ & _ & Hkeys & Hval).
  assert (plugin_rules Examples.store_with_plugin (VRef Examples.foo)
          = Some [("bar", VRef Examples.bar)]) as Hro by (vm_compute; reflexivity).
  rewrite Hro in Hp. injection Hp as <-.
  destruct (Hval "bar" (or_introl eq_refl)) as (rule & type & Hrule & Htype & _ & _ & Hget).
  injection Hrule as <-.
  assert (declared_type Examples.store_with_plugin (VRef Examples.bar)
          = Some (VStr "security")) as Hdecl by (vm_compute; reflexivity).
  rewrite Hdecl in Htype. injection Htype as <-.
  assert (cfg = [("foo/bar", VStr "security")]) as ->.
  { destruct cfg as [|[k v] [|kv cfg]]; try discriminate Hkeys.
    injection Hkeys as ->. simpl in Hget.
    change (Some v = Some (VStr "security")) in Hget. injection Hget as ->. reflexivity. }
  exact Hrun.
Defined.

(** The call of the specification: the result is exactly the object with
    the one property foo/bar, of value security. *)
Example resolvePluginConfig_foo_bar :
  resolvePluginConfig "foo" (VRef Examples.foo) Examples.store_with_plugin
  = (Normal (VRef (fresh (dom Examples.store_with_plugin))),
     <[fresh (dom Examples.store_with_plugin) := [("foo/bar", VStr "security")]]>
       Examples.store_with_plugin).
Proof. vm_compute. reflexivity. Qed.

(** A rule without [meta] makes the call throw, as the source says it may. *)
Example resolvePluginConfig_malformed :
  fst (resolvePluginConfig "broken" (VRef Examples.broken) Examples.store_with_plugin)
  = Abrupt (TypeError (ReadProperty VUndefined "docs")).
Proof. vm_compute. reflexivity. Qed.

(** ** From [resolvePluginConfig] back to [load] *)

(** C8 (as the claim states it, refuted). The claim lets the plugin name
    be any string.  With the name acme/foo and the bare rule name bar the
    key produced is acme/foo/bar; [load] takes the plugin branch, but its
    first segment is acme, not the plugin name, and its second segment is
    foo, not the rule name. *)
Lemma plugin_name_with_slash_not_recovered :
  has "/" "bar" = false
  /\ own_keys (obj_at (snd (resolvePluginConfig "acme/foo" (VRef Examples.foo)
                                                Examples.store_with_plugin))
                      (fresh (dom Examples.store_with_plugin)))
     = ["acme/foo/bar"]
  /\ (indexOf "/" "acme/foo/bar" >? -1)%Z = true
  /\ at_ (split "/" "acme/foo/bar") 0 = "acme"
  /\ at_ (split "/" "acme/foo/bar") 1 = "foo"
  /\ at_ (split "/" "acme/foo/bar") 0 <> "acme/foo"
  /\ at_ (split "/" "acme/foo/bar") 1 <> "bar".
Proof.
  split; [reflexivity|]. split; [vm_compute; reflexivity|].
  repeat (split; [reflexivity|]). split; discriminate.
Qed.

(** C8 (amended). When the plugin name has no slash either, every key
    [resolvePluginConfig] produces for a bare rule name has a slash, so
    [load] takes the plugin branch for it; the split gives back exactly
    the plugin name and the rule name, and with the plugin registered under
    its package name [load] binds the key to that rule of the plugin. *)
Theorem plugin_config_keys_route_back (name : string) (plugin : value) (h : heap) :
  has "/" name = false ->
  well_formed_plugin h plugin = true ->
  exists ro,
    (rules <- Get plugin "rules" ;; Object_keys rules) h = (Normal (own_keys ro), h)
    /\ own_keys (obj_at (snd (resolvePluginConfig name plugin h)) (fresh (dom h)))
       = map (fun ruleName => name +:+ "/" +:+ ruleName) (own_keys ro)
    /\ forall ruleName,
         In ruleName (own_keys ro) ->
         has "/" ruleName = false ->
         (indexOf "/" (name +:+ "/" +:+ ruleName) >? -1)%Z = true
         /\ split "/" (name +:+ "/" +:+ ruleName) = [name; ruleName]
         /\ at_ (split "/" (name +:+ "/" +:+ ruleName)) 0 = name
         /\ at_ (split "/" (name +:+ "/" +:+ ruleName)) 1 = ruleName
         /\ forall path_join ruleDefs tbl,
              own_get (obj_at h tbl) (SOLIUM_PLUGIN_PREFIX +:+ name) = Some plugin ->
              load path_join ruleDefs [name +:+ "/" +:+ ruleName] (VRef tbl) h
              = (Normal (VRef ruleDefs),
                 <[ruleDefs := own_set (obj_at h ruleDefs) (name +:+ "/" +:+ ruleName)
                                       (read ro ruleName)]> h).
Proof.
  intros Hn Hwf.
  destruct (resolvePluginConfig_on_well_formed name plugin h Hwf)
    as (ro & Hp & Hkeys & Hrun & Hcfg).
  exists ro. split; [exact Hkeys|]. split.
  - rewrite Hrun. simpl. rewrite obj_at_insert_eq. exact Hcfg.
  - intros r Hr Hb.
    assert (split "/" (name +:+ "/" +:+ r) = [name; r]) as Hsplit.
    { change (name +:+ "/" +:+ r) with (name +:+ String "/" r).
      rewrite split_at_first by exact Hn. rewrite split_without by exact Hb. reflexivity. }
    assert (has "/" (name +:+ "/" +:+ r) = true) as Hs by apply has_append.
    split; [rewrite indexOf_gt_has; exact Hs|].
    split; [exact Hsplit|]. rewrite Hsplit. split; [reflexivity|]. split; [reflexivity|].
    intros path_join ruleDefs tbl Htbl.
    unfold plugin_rules in Hp.
    destruct (as_object h plugin) as [po|] eqn:E0; [|discriminate].
    rewrite load_cons, (load_one_plugin _ _ _ tbl h plugin (read po "rules") (read ro r) Hs).
    + apply load_nil.
    + rewrite Hsplit. exact Htbl.
    + apply Get_object. exact E0.
    + rewrite Hsplit. apply Get_object. exact Hp.
Qed.

Lemma plugin_config_keys_route_back_witness :
  has "/" "foo" = false
  /\ well_formed_plugin Examples.store_with_plugin (VRef Examples.foo) = true
  /\ exists ro,
       (rules <- Get (VRef Examples.foo) "rules" ;; Object_keys rules)
         Examples.store_with_plugin
       = (Normal (own_keys ro), Examples.store_with_plugin)
       /\ own_keys (obj_at (snd (resolvePluginConfig "foo" (VRef Examples.foo)
                                                     Examples.store_with_plugin))
                           (fresh (dom Examples.store_with_plugin)))
          = map (fun ruleName => "foo" +:+ "/" +:+ ruleName) (own_keys ro)
       /\ forall ruleName,
            In ruleName (own_keys ro) ->
            has "/" ruleName = false ->
            (indexOf "/" ("foo" +:+ "/" +:+ ruleName) >? -1)%Z = true
            /\ split "/" ("foo" +:+ "/" +:+ ruleName) = ["foo"; ruleName]
            /\ at_ (split "/" ("foo" +:+ "/" +:+ ruleName)) 0 = "foo"
            /\ at_ (split "/" ("foo" +:+ "/" +:+ ruleName)) 1 = ruleName
            /\ forall path_join ruleDefs tbl,
                 own_get (obj_at Examples.store_with_plugin tbl)
                         (SOLIUM_PLUGIN_PREFIX +:+ "foo") = Some (VRef Examples.foo) ->
                 load path_join ruleDefs ["foo" +:+ "/" +:+ ruleName] (VRef tbl)
                      Examples.store_with_plugin
                 = (Normal (VRef ruleDefs),
                    <[ruleDefs := own_set (obj_at Examples.store_with_plugin ruleDefs)
                                          ("foo" +:+ "/" +:+ ruleName)
                                          (read ro ruleName)]> Examples.store_with_plugin).
Proof.
  assert (well_formed_plugin Examples.store_with_plugin (VRef Examples.foo) = true) as H
    by (vm_compute; reflexivity).
  split; [reflexivity|]. split; [exact H|].
  exact (plugin_config_keys_route_back "foo" (VRef Examples.foo)
           Examples.store_with_plugin eq_refl H).
Defined.

(** * Further properties of [load] *)

(** The three reads of the plugin branch (lines 131-143) taken together:
    the value [load] is about to store under a name with a slash. *)
Definition locate (plugins : value) (name : string) : M value :=
  let parts := split "/" name in
  let pluginName := SOLIUM_PLUGIN_PREFIX +:+ at_ parts 0 in
  let ruleName := at_ parts 1 in
  plugin <- try_catch (Get plugins pluginName)
              (fun e => throw (Error (unable_to_load_plugin pluginName))) ;;
  rules <- Get plugin "rules" ;;
  Get rules ruleName.

(** Two stores agree when every object has the same own properties under
    the keys without a slash. *)
Definition agree (h g : heap) : Prop :=
  forall l k, has "/" k = false -> own_get (obj_at h l) k = own_get (obj_at g l) k.

Lemma has_app (c : ascii) (p q : string) : has c (p +:+ q) = has c p || has c q.
Proof.
  induction p as [|a p IH]; [reflexivity|].
  change (has c (String a (p +:+ q)) = has c (String a p) || has c q).
  simpl. rewrite IH. apply orb_assoc.
Qed.

Lemma split_segments_clean (c : ascii) (s p : string) :
  In p (split c s) -> has c p = false.
Proof.
  revert p. induction s as [|a s IH]; simpl; intros p.
  - intros [<-|[]]. reflexivity.
  - destruct (Ascii.eqb a c) eqn:E.
    + intros [<-|H]; [reflexivity | apply IH; exact H].
    + destruct (split c s) as [|q qs] eqn:Es.
      * intros [<-|[]]. simpl. rewrite E. reflexivity.
      * intros [<-|H].
        -- simpl. rewrite E. apply IH. left. reflexivity.
        -- apply IH. right. exact H.
Qed.

Lemma segment_clean (s : string) (i : nat) : has "/" (at_ (split "/" s) i) = false.
Proof.
  unfold at_. destruct (nth_error (split "/" s) i) as [p|] eqn:E; [|reflexivity].
  apply (split_segments_clean "/" s). exact (nth_error_In _ _ E).
Qed.

Lemma package_clean (s : string) :
  has "/" (SOLIUM_PLUGIN_PREFIX +:+ at_ (split "/" s) 0) = false.
Proof. rewrite has_app, segment_clean. reflexivity. Qed.

Lemma Get_eta (v : value) (k : string) (h : heap) : Get v k h = (fst (Get v k h), h).
Proof. destruct v; reflexivity. Qed.

Lemma Get_agree (h g : heap) (v : value) (k : string) :
  agree h g -> has "/" k = false -> fst (Get v k h) = fst (Get v k g).
Proof.
  intros A Hk. destruct v; try reflexivity.
  simpl. unfold read. rewrite (A l k Hk). reflexivity.
Qed.

Lemma agree_refl (h : heap) : agree h h.
Proof. intros l k _. reflexivity. Qed.

Lemma agree_trans (h g f : heap) : agree h g -> agree g f -> agree h f.
Proof. intros A B l k Hk. rewrite (A l k Hk). apply B. exact Hk. Qed.

Lemma agree_sym (h g : heap) : agree h g -> agree g h.
Proof. intros A l k Hk. symmetry. apply A. exact Hk. Qed.

Lemma locate_eta (plugins : value) (name : string) (h : heap) :
  locate plugins name h = (fst (locate plugins name h), h).
Proof.
  unfold locate, bind, try_catch, throw.
  rewrite (Get_eta plugins). destruct (fst (Get plugins _ h)) as [plugin|e]; [|reflexivity].
  rewrite (Get_eta plugin). destruct (fst (Get plugin "rules" h)) as [rules|e]; [|reflexivity].
  rewrite (Get_eta rules). reflexivity.
Qed.

(** What is located depends only on properties whose key has no slash. *)
Lemma locate_agree (plugins : value) (name : string) (h g : heap) :
  agree h g -> fst (locate plugins name h) = fst (locate plugins name g).
Proof.
  intros A. unfold locate, bind, try_catch, throw.
  rewrite (Get_eta plugins _ h), (Get_eta plugins _ g).
  rewrite (Get_agree h g plugins _ A (package_clean name)).
  destruct (fst (Get plugins _ g)) as [plugin|e]; [|reflexivity].
  rewrite (Get_eta plugin _ h), (Get_eta plugin _ g).
  rewrite (Get_agree h g plugin "rules" A eq_refl).
  destruct (fst (Get plugin "rules" g)) as [rules|e]; [|reflexivity].
  rewrite (Get_eta rules _ h), (Get_eta rules _ g).
  rewrite (Get_agree h g rules _ A (segment_clean name 1)). reflexivity.
Qed.

Lemma Get_exn (v : value) (k : string) (h : heap) (e : exn) :
  fst (Get v k h) = Abrupt e ->
  e = TypeError (ReadProperty v k) /\ (v = VUndefined \/ v = VNull).
Proof.
  destruct v; simpl; try discriminate; intros H; injection H as <-; tauto.
Qed.

(** The exceptions the three reads can raise. *)
Lemma locate_exn (plugins : value) (name : string) (h : heap) (e : exn) :
  fst (locate plugins name h) = Abrupt e ->
  (e = Error (unable_to_load_plugin (SOLIUM_PLUGIN_PREFIX +:+ at_ (split "/" name) 0))
   /\ (plugins = VUndefined \/ plugins = VNull))
  \/ (exists base key,
         e = TypeError (ReadProperty base key)
         /\ (base = VUndefined \/ base = VNull)
         /\ (key = "rules" \/ key = at_ (split "/" name) 1)).
Proof.
  unfold locate, bind, try_catch, throw.
  rewrite (Get_eta plugins).
  destruct (fst (Get plugins _ h)) as [plugin|e0] eqn:E1.
  - rewrite (Get_eta plugin).
    destruct (fst (Get plugin "rules" h)) as [rules|e1] eqn:E2.
    + intros H. apply Get_exn in H as [-> Hv]. right.
      exists rules, (at_ (split "/" name) 1). tauto.
    + simpl. intros H. injection H as <-. apply Get_exn in E2 as [-> Hv]. right.
      exists plugin, "rules". tauto.
  - simpl. intros H. injection H as <-. apply Get_exn in E1 as [_ Hv]. left. tauto.
Qed.

Lemma own_set_same (o : object) (k : string) (v : value) :
  own_get o k = Some v -> own_set o k v = o.
Proof.
  induction o as [|[k' v'] o IH]; simpl; [discriminate|].
  destruct (String.eqb k' k) eqn:E.
  - intros H. injection H as ->. reflexivity.
  - intros H. rewrite (IH H). reflexivity.
Qed.

Lemma own_keys_set_old (o : object) (k : string) (v : value) :
  In k (own_keys o) -> own_keys (own_set o k v) = own_keys o.
Proof.
  induction o as [|[k' v'] o IH]; simpl; [tauto|].
  destruct (String.eqb k' k) eqn:E; [reflexivity|].
  apply String.eqb_neq in E. intros [H|H]; [contradiction|].
  simpl. rewrite (IH H). reflexivity.
Qed.

Lemma forEach_app {A} (l1 l2 : list A) (f : A -> M unit) (h : heap) :
  forEach (l1 ++ l2)%list f h =
  match forEach l1 f h with
  | (Normal _, h1) => forEach l2 f h1
  | (Abrupt e, h1) => (Abrupt e, h1)
  end.
Proof.
  revert h. induction l1 as [|x l1 IH]; intros h; [reflexivity|].
  simpl. unfold bind. destruct (f x h) as [[[]|e] h1]; [apply IH | reflexivity].
Qed.

Section LoadMore.

Variable path_join : string -> string -> string.
Variable ruleDefs : loc.

Local Abbreviation run_one := (load_one path_join ruleDefs).
Local Abbreviation run := (load path_join ruleDefs).

(** The plugin branch is: locate, then store. *)
Lemma load_one_locate (plugins : value) (name : string) (h : heap) :
  has "/" name = true ->
  run_one plugins name h =
  match fst (locate plugins name h) with
  | Normal v => (Normal tt, <[ruleDefs := own_set (obj_at h ruleDefs) name v]> h)
  | Abrupt e => (Abrupt e, h)
  end.
Proof.
  intros Hs. unfold load_one, locate. rewrite indexOf_gt_has, Hs.
  unfold bind, try_catch, throw.
  rewrite (Get_eta plugins). destruct (fst (Get plugins _ h)) as [plugin|e]; [|reflexivity].
  rewrite (Get_eta plugin). destruct (fst (Get plugin "rules" h)) as [rules|e]; [|reflexivity].
  rewrite (Get_eta rules). simpl.
  destruct (fst (Get rules _ h)) as [impl|e]; reflexivity.
Qed.

Lemma load_one_agree (plugins : value) (name : string) (h : heap) :
  agree h (snd (run_one plugins name h)).
Proof.
  destruct (has "/" name) eqn:Hs.
  - rewrite load_one_locate by exact Hs.
    destruct (fst (locate plugins name h)) as [v|e]; [|apply agree_refl].
    intros l k Hk. simpl. destruct (decide (l = ruleDefs)) as [->|Hne].
    + rewrite obj_at_insert_eq, own_get_set_ne; [reflexivity|].
      intros <-. rewrite Hs in Hk. discriminate.
    + rewrite obj_at_insert_ne by congruence. reflexivity.
  - rewrite load_one_bare by exact Hs. apply agree_refl.
Qed.

Lemma load_agree (listOfRules : list string) (plugins : value) (h : heap) :
  agree h (snd (run listOfRules plugins h)).
Proof.
  revert h. induction listOfRules as [|name rest IH]; intros h; [apply agree_refl|].
  rewrite load_cons. pose proof (load_one_agree plugins name h) as A.
  destruct (run_one plugins name h) as [[[]|e] h1]; simpl in A; [|exact A].
  exact (agree_trans _ _ _ A (IH h1)).
Qed.

Lemma load_one_elsewhere (plugins : value) (name : string) (h : heap) (l : loc) :
  l <> ruleDefs -> snd (run_one plugins name h) !! l = h !! l.
Proof.
  intros Hne. destruct (load_one_effect path_join ruleDefs plugins name h) as [-> | [v ->]];
    [reflexivity|]. apply lookup_insert_ne. congruence.
Qed.

Lemma load_one_keys (plugins : value) (name : string) (h : heap) :
  exists extra,
    own_keys (obj_at (snd (run_one plugins name h)) ruleDefs)
    = (own_keys (obj_at h ruleDefs) ++ extra)%list
    /\ (extra = [] \/ (extra = [name] /\ has "/" name = true)).
Proof.
  destruct (has "/" name) eqn:Hs.
  - rewrite load_one_locate by exact Hs.
    destruct (fst (locate plugins name h)) as [v|e]; simpl.
    + rewrite obj_at_insert_eq.
      destruct (in_dec string_dec name (own_keys (obj_at h ruleDefs))) as [Hin|Hin].
      * exists []. rewrite own_keys_set_old by exact Hin. rewrite app_nil_r. tauto.
      * exists [name]. rewrite own_keys_set_new by exact Hin. tauto.
    + exists []. rewrite app_nil_r. tauto.
  - rewrite load_one_bare by exact Hs. exists []. rewrite app_nil_r. tauto.
Qed.

Lemma load_concat (l1 l2 : list string) (plugins : value) (h : heap) :
  run (l1 ++ l2)%list plugins h =
  match run l1 plugins h with
  | (Normal _, h1) => run l2 plugins h1
  | (Abrupt e, h1) => (Abrupt e, h1)
  end.
Proof.
  unfold load, bind. rewrite forEach_app.
  destruct (forEach l1 (run_one plugins) h) as [[[]|e] h1]; reflexivity.
Qed.

Lemma load_elsewhere (listOfRules : list string) (plugins : value)
      (h : heap) (l : loc) :
  l <> ruleDefs -> snd (run listOfRules plugins h) !! l = h !! l.
Proof.
  intros Hne. revert h. induction listOfRules as [|name rest IH]; intros h; [reflexivity|].
  rewrite load_cons. pose proof (load_one_elsewhere plugins name h l Hne) as E.
  destruct (run_one plugins name h) as [[[]|e] h1]; simpl in E.
  - rewrite IH. exact E.
  - exact E.
Qed.

End LoadMore.

(** X1. [load] on a list in two parts is [load] on the first part followed,
    if that returned, by [load] on the second part in the store the first
    left; if the first part threw, that is the outcome, with the bindings
    made before the throw still in the registry. *)
Theorem load_app
    (path_join : string -> string -> string) (ruleDefs : loc)
    (l1 l2 : list string) (plugins : value) (h : heap) :
  load path_join ruleDefs (l1 ++ l2)%list plugins h =
  match load path_join ruleDefs l1 plugins h with
  | (Normal _, h1) => load path_join ruleDefs l2 plugins h1
  | (Abrupt e, h1) => (Abrupt e, h1)
  end.
Proof.
  apply load_concat.
Qed.

(** X2. Whatever [load] throws comes from an entry with a slash, and is
    either the error naming the plugin package, which needs the plugin
    table itself to be [undefined] or [null], or the [TypeError] of reading
    [rules] or the rule name from [undefined] or [null].  In particular
    the error of the core branch, unable to read, is never thrown. *)
Theorem load_failure_kinds
    (path_join : string -> string -> string) (ruleDefs : loc)
    (listOfRules : list string) (plugins : value) (h h' : heap) (e : exn) :
  load path_join ruleDefs listOfRules plugins h = (Abrupt e, h') ->
  (exists name,
      In name listOfRules /\ has "/" name = true
      /\ ((e = Error (unable_to_load_plugin
                        (SOLIUM_PLUGIN_PREFIX +:+ at_ (split "/" name) 0))
           /\ (plugins = VUndefined \/ plugins = VNull))
          \/ (exists base key,
                 e = TypeError (ReadProperty base key)
                 /\ (base = VUndefined \/ base = VNull)
                 /\ (key = "rules" \/ key = at_ (split "/" name) 1))))
  /\ forall ruleFile, e <> Error (unable_to_read ruleFile).
Proof.
  intros H.
  assert (exists name,
             In name listOfRules /\ has "/" name = true
             /\ exists g, fst (locate plugins name g) = Abrupt e) as (name & Hin & Hs & g & Hg).
  { revert h H. induction listOfRules as [|name rest IH]; intros h H; [discriminate|].
    rewrite load_cons in H. destruct (has "/" name) eqn:Hs.
    - rewrite load_one_locate in H by exact Hs.
      destruct (fst (locate plugins name h)) as [v|e0] eqn:E.
      + destruct (IH _ H) as (n & Hn & Hr). exists n. split; [right; exact Hn | exact Hr].
      + injection H as <- <-. exists name. split; [left; reflexivity|].
        split; [exact Hs|]. exists h. exact E.
    - rewrite load_one_bare in H by exact Hs.
      destruct (IH _ H) as (n & Hn & Hr). exists n. split; [right; exact Hn | exact Hr]. }
  pose proof (locate_exn plugins name g e Hg) as K. split.
  - exists name. split; [exact Hin|]. split; [exact Hs | exact K].
  - intros ruleFile ->. destruct K as [[K _] | (base & key & K & _)]; discriminate K.
Qed.

Lemma load_failure_kinds_witness :
  load Examples.posix_join Examples.registry ["emit"; "pluginA/ruleB"]
       (VRef Examples.table) Examples.store
  = (Abrupt (TypeError (ReadProperty VUndefined "rules")), Examples.store)
  /\ forall ruleFile,
       TypeError (ReadProperty VUndefined "rules") <> Error (unable_to_read ruleFile).
Proof.
  assert (load Examples.posix_join Examples.registry ["emit"; "pluginA/ruleB"]
               (VRef Examples.table) Examples.store
          = (Abrupt (TypeError (ReadProperty VUndefined "rules")), Examples.store)) as H
    by (vm_compute; reflexivity).
  split; [exact H|].
  exact (proj2 (load_failure_kinds Examples.posix_join Examples.registry
                  ["emit"; "pluginA/ruleB"] (VRef Examples.table)
                  Examples.store Examples.store _ H)).
Defined.

(** X3. A name with a slash whose plugin package is not an own key of the
    plugin table stops [load] with the [TypeError] of reading [rules] from
    [undefined]; the store is left as it was and the names after it are
    not looked at. *)
Theorem load_absent_plugin_type_error
    (path_join : string -> string -> string) (ruleDefs : loc)
    (name : string) (rest : list string) (tbl : loc) (h : heap) :
  has "/" name = true ->
  own_get (obj_at h tbl) (SOLIUM_PLUGIN_PREFIX +:+ at_ (split "/" name) 0) = None ->
  load path_join ruleDefs (name :: rest) (VRef tbl) h
  = (Abrupt (TypeError (ReadProperty VUndefined "rules")), h).
Proof.
  intros Hs Hp. rewrite load_cons, load_one_absent by assumption. reflexivity.
Qed.

Lemma load_absent_plugin_type_error_witness :
  has "/" "pluginA/ruleB" = true
  /\ load Examples.posix_join Examples.registry ["pluginA/ruleB"; "emit"]
          (VRef Examples.table) Examples.store
     = (Abrupt (TypeError (ReadProperty VUndefined "rules")), Examples.store).
Proof.
  split; [reflexivity|].
  apply (load_absent_plugin_type_error Examples.posix_join Examples.registry
           "pluginA/ruleB" ["emit"] Examples.table Examples.store); reflexivity.
Defined.

Lemma load_bare_list
      (path_join : string -> string -> string) (ruleDefs : loc)
      (names : list string) (plugins : value) (h : heap) :
  (forall n, In n names -> has "/" n = false) ->
  load path_join ruleDefs names plugins h = (Normal (VRef ruleDefs), h).
Proof.
  induction names as [|n names IH]; intros Hb; [apply load_nil|].
  rewrite load_bare_head by (apply Hb; left; reflexivity).
  apply IH. intros m Hm. apply Hb. right. exact Hm.
Qed.

Lemma load_Abrupt_located
      (path_join : string -> string -> string) (ruleDefs : loc)
      (listOfRules : list string) (plugins : value) (h h' : heap) (e : exn) :
  load path_join ruleDefs listOfRules plugins h = (Abrupt e, h') ->
  exists name g,
    In name listOfRules /\ has "/" name = true
    /\ fst (locate plugins name g) = Abrupt e.
Proof.
  revert h. induction listOfRules as [|name rest IH]; intros h H; [discriminate|].
  rewrite load_cons in H. destruct (has "/" name) eqn:Hs.
  - rewrite load_one_locate in H by exact Hs.
    destruct (fst (locate plugins name h)) as [v|e0] eqn:E.
    + destruct (IH _ H) as (n & g & Hn & Hr). exists n, g. split; [right; exact Hn | exact Hr].
    + injection H as <- <-. exists name, h. split; [left; reflexivity|].
      split; [exact Hs | exact E].
  - rewrite load_one_bare in H by exact Hs.
    destruct (IH _ H) as (n & g & Hn & Hr). exists n, g. split; [right; exact Hn | exact Hr].
Qed.

(** X4. The handler of the plugin branch runs exactly when there is no
    plugin table.  With [plugins] [undefined] or [null], the first name
    with a slash stops [load] with the error whose message names the
    prefix followed by the first segment of that name, and the store is
    left as it was; with any other [plugins] that outcome does not occur.
    Conversely, whenever [load] throws an [Error] at all, [plugins] was
    [undefined] or [null] and the message is that of the handler for a
    name of the list that has a slash. *)
Theorem load_without_table
    (path_join : string -> string -> string) (ruleDefs : loc)
    (before : list string) (name : string) (rest : list string)
    (plugins : value) (h : heap) :
  (forall n, In n before -> has "/" n = false) ->
  has "/" name = true ->
  (plugins = VUndefined \/ plugins = VNull
   <-> load path_join ruleDefs (before ++ name :: rest)%list plugins h
       = (Abrupt (Error (unable_to_load_plugin
                           (SOLIUM_PLUGIN_PREFIX +:+ at_ (split "/" name) 0))), h))
  /\ occurs_in (SOLIUM_PLUGIN_PREFIX +:+ at_ (split "/" name) 0)
               (unable_to_load_plugin (SOLIUM_PLUGIN_PREFIX +:+ at_ (split "/" name) 0))
  /\ forall listOfRules g g' message,
       load path_join ruleDefs listOfRules plugins g = (Abrupt (Error message), g') ->
       (plugins = VUndefined \/ plugins = VNull)
       /\ exists n,
            In n listOfRules /\ has "/" n = true
            /\ message = unable_to_load_plugin
                           (SOLIUM_PLUGIN_PREFIX +:+ at_ (split "/" n) 0).
Proof.
  intros Hb Hs.
  assert (forall listOfRules g g' message,
             load path_join ruleDefs listOfRules plugins g = (Abrupt (Error message), g') ->
             (plugins = VUndefined \/ plugins = VNull)
             /\ exists n,
                  In n listOfRules /\ has "/" n = true
                  /\ message = unable_to_load_plugin
                                 (SOLIUM_PLUGIN_PREFIX +:+ at_ (split "/" n) 0)) as Only.
  { intros l g g' message H.
    destruct (load_Abrupt_located _ _ _ _ _ _ _ H) as (n & g0 & Hin & Hn & Hl).
    destruct (locate_exn plugins n g0 _ Hl) as [[E Hp] | (base & key & E & _)];
      [|discriminate E].
    injection E as ->. split; [exact Hp|]. exists n. tauto. }
  split; [|split; [|exact Only]].
  - split.
    + intros Hp. rewrite load_concat, (load_bare_list _ _ _ _ _ Hb).
      rewrite load_cons, load_one_locate by exact Hs.
      destruct Hp as [-> | ->]; reflexivity.
    + intros H. exact (proj1 (Only _ _ _ _ H)).
  - exists ("Unable to load Plugin " +:+ dq), (dq +:+ ".").
    unfold unable_to_load_plugin. rewrite ?append_assoc. reflexivity.
Qed.

Lemma load_without_table_witness :
  (forall n, In n ["emit"; "no-such-rule"] -> has "/" n = false)
  /\ has "/" "pluginA/ruleB" = true
  /\ load Examples.posix_join Examples.registry
          ["emit"; "no-such-rule"; "pluginA/ruleB"; "foo/bar"] VNull
          Examples.store_with_plugin
     = (Abrupt (Error ("Unable to load Plugin " +:+ dq +:+
                       "solium-plugin-pluginA" +:+ dq +:+ ".")),
        Examples.store_with_plugin)
  /\ load Examples.posix_join Examples.registry
          ["emit"; "no-such-rule"; "pluginA/ruleB"; "foo/bar"] (VRef Examples.table)
          Examples.store_with_plugin
     <> (Abrupt (Error ("Unable to load Plugin " +:+ dq +:+
                        "solium-plugin-pluginA" +:+ dq +:+ ".")),
         Examples.store_with_plugin).
Proof.
  assert (forall n, In n ["emit"; "no-such-rule"] -> has "/" n = false) as Hb
    by (intros n [<-|[<-|[]]]; reflexivity).
  split; [exact Hb|]. split; [reflexivity|]. split.
  - apply (proj1 (load_without_table Examples.posix_join Examples.registry
                    ["emit"; "no-such-rule"] "pluginA/ruleB" ["foo/bar"] VNull
                    Examples.store_with_plugin Hb eq_refl)).
    right. reflexivity.
  - intros H.
    apply (proj1 (load_without_table Examples.posix_join Examples.registry
                    ["emit"; "no-such-rule"] "pluginA/ruleB" ["foo/bar"]
                    (VRef Examples.table) Examples.store_with_plugin Hb eq_refl)) in H.
    destruct H as [H|H]; discriminate H.
Defined.

(** X5. [load] never changes, in any object of the store, a property whose
    key has no slash, whether it returns or throws: the bindings of the
    core rules cannot be overwritten through [load]. *)
Theorem load_never_rebinds_bare_names
    (path_join : string -> string -> string) (ruleDefs : loc)
    (listOfRules : list string) (plugins : value) (h : heap) (l : loc) (k : string) :
  has "/" k = false ->
  own_get (obj_at (snd (load path_join ruleDefs listOfRules plugins h)) l) k
  = own_get (obj_at h l) k.
Proof. intros Hk. symmetry. apply load_agree. exact Hk. Qed.

Lemma load_never_rebinds_bare_names_witness :
  has "/" "emit" = false
  /\ own_get (obj_at (snd (load Examples.posix_join Examples.registry
                                ["emit"; "pluginA/ruleB"; "nobody/x"]
                                (VRef Examples.table) Examples.store_with_plugin))
                     Examples.registry) "emit"
     = own_get (obj_at Examples.store_with_plugin Examples.registry) "emit".
Proof.
  split; [reflexivity|].
  apply (load_never_rebinds_bare_names Examples.posix_join Examples.registry).
  reflexivity.
Defined.

(** X6. [load] changes no object other than the registry: the plugin
    table, the plugins and their rules are as they were, also on a throw. *)
Theorem load_changes_registry_only
    (path_join : string -> string -> string) (ruleDefs : loc)
    (listOfRules : list string) (plugins : value) (h : heap) (l : loc) :
  l <> ruleDefs ->
  snd (load path_join ruleDefs listOfRules plugins h) !! l = h !! l.
Proof.
  apply load_elsewhere.
Qed.

Lemma load_changes_registry_only_witness :
  Examples.pluginA_rules <> Examples.registry
  /\ snd (load Examples.posix_join Examples.registry ["pluginA/ruleB"]
               (VRef Examples.table) Examples.store_with_plugin)
       !! Examples.pluginA_rules
     = Examples.store_with_plugin !! Examples.pluginA_rules.
Proof.
  assert (Examples.pluginA_rules <> Examples.registry) as H by discriminate.
  split; [exact H|].
  exact (load_changes_registry_only Examples.posix_join Examples.registry
           ["pluginA/ruleB"] (VRef Examples.table) Examples.store_with_plugin
           Examples.pluginA_rules H).
Defined.

(** X7. The registry only grows: after [load], returned or thrown, its
    keys are the keys it had, in the same order, followed by names of the
    list that have a slash. *)
Theorem load_registry_keys_grow
    (path_join : string -> string -> string) (ruleDefs : loc)
    (listOfRules : list string) (plugins : value) (h : heap) :
  exists extra,
    own_keys (obj_at (snd (load path_join ruleDefs listOfRules plugins h)) ruleDefs)
    = (own_keys (obj_at h ruleDefs) ++ extra)%list
    /\ forall k, In k extra -> In k listOfRules /\ has "/" k = true.
Proof.
  revert h. induction listOfRules as [|name rest IH]; intros h.
  - exists []. simpl. rewrite app_nil_r. split; [reflexivity | intros k []].
  - rewrite load_cons.
    destruct (load_one_keys path_join ruleDefs plugins name h) as (x & Hx & Hkind).
    destruct (load_one path_join ruleDefs plugins name h) as [[[]|e] h1]; simpl in Hx.
    + destruct (IH h1) as (extra & He & Hin). exists (x ++ extra)%list.
      rewrite He, Hx, app_assoc. split; [reflexivity|].
      intros k Hk. apply in_app_iff in Hk as [Hk|Hk].
      * destruct Hkind as [-> | [-> Hs]]; [destruct Hk|].
        destruct Hk as [<-|[]]. split; [left; reflexivity | exact Hs].
      * destruct (Hin k Hk). split; [right; assumption | assumption].
    + exists x. split; [exact Hx|]. intros k Hk.
      destruct Hkind as [-> | [-> Hs]]; [destruct Hk|].
      destruct Hk as [<-|[]]. split; [left; reflexivity | exact Hs].
Qed.

Section LoadOutcome.

Variable path_join : string -> string -> string.
Variable ruleDefs : loc.
Variable plugins : value.

Local Abbreviation run_one := (load_one path_join ruleDefs plugins).
Local Abbreviation run := (fun l => load path_join ruleDefs l plugins).

(** Every entry with a slash can be located in [h0]. *)
Definition all_located (listOfRules : list string) (h0 : heap) : Prop :=
  forall name, In name listOfRules -> has "/" name = true ->
               exists v, fst (locate plugins name h0) = Normal v.

Lemma load_located (listOfRules : list string) (h0 h : heap) :
  agree h0 h ->
  all_located listOfRules h0 ->
  exists h',
    run listOfRules h = (Normal (VRef ruleDefs), h')
    /\ agree h0 h'
    /\ forall name v,
         In name listOfRules -> has "/" name = true ->
         fst (locate plugins name h0) = Normal v ->
         own_get (obj_at h' ruleDefs) name = Some v.
Proof.
  revert h. induction listOfRules as [|name rest IH]; intros h A Hall.
  - exists h. split; [reflexivity|]. split; [exact A | intros ? ? []].
  - assert (all_located rest h0) as Hrest
      by (intros n Hn; apply Hall; right; exact Hn).
    cbv beta. rewrite load_cons. destruct (has "/" name) eqn:Hs.
    + destruct (Hall name (or_introl eq_refl) Hs) as [v Hv].
      rewrite load_one_locate by exact Hs.
      rewrite <- (locate_agree plugins name h0 h A), Hv.
      set (h1 := <[ruleDefs := own_set (obj_at h ruleDefs) name v]> h).
      assert (agree h0 h1) as A1.
      { apply (agree_trans _ _ _ A).
        pose proof (load_one_agree path_join ruleDefs plugins name h) as B.
        rewrite load_one_locate in B by exact Hs.
        rewrite <- (locate_agree plugins name h0 h A), Hv in B. exact B. }
      destruct (IH h1 A1 Hrest) as (h' & E & A' & Hb).
      exists h'. split; [exact E|]. split; [exact A'|].
      intros n w [<-|Hn] Hsn Hw.
      * rewrite Hv in Hw. injection Hw as <-.
        destruct (in_dec string_dec name rest) as [Hin|Hin]; [exact (Hb name v Hin Hs Hv)|].
        pose proof (load_frame path_join ruleDefs rest plugins h1 name Hin) as F.
        cbv beta in E. rewrite E in F. simpl in F. rewrite F.
        unfold h1. rewrite obj_at_insert_eq. apply own_get_set_eq.
      * exact (Hb n w Hn Hsn Hw).
    + rewrite load_one_bare by exact Hs.
      destruct (IH h A Hrest) as (h' & E & A' & Hb).
      exists h'. split; [exact E|]. split; [exact A'|].
      intros n w [<-|Hn] Hsn Hw; [rewrite Hs in Hsn; discriminate|].
      exact (Hb n w Hn Hsn Hw).
Qed.

Lemma load_Normal_located (listOfRules : list string) (h h1 : heap) (r : value) :
  run listOfRules h = (Normal r, h1) -> all_located listOfRules h.
Proof.
  revert h. induction listOfRules as [|name rest IH]; intros h H; [intros ? []|].
  cbv beta in H. rewrite load_cons in H.
  pose proof (load_one_agree path_join ruleDefs plugins name h) as A.
  destruct (has "/" name) eqn:Hs.
  - rewrite load_one_locate in H, A by exact Hs.
    destruct (fst (locate plugins name h)) as [v|e] eqn:E; [|discriminate].
    simpl in A. intros n [<-|Hn] Hsn; [exists v; exact E|].
    destruct (IH _ H n Hn Hsn) as [w Hw]. exists w.
    rewrite (locate_agree plugins n _ _ A). exact Hw.
  - rewrite load_one_bare in H by exact Hs.
    intros n [<-|Hn] Hsn; [rewrite Hs in Hsn; discriminate|].
    exact (IH _ H n Hn Hsn).
Qed.

Lemma allocated_of_own_get (g : heap) (l : loc) (k : string) (v : value) :
  own_get (obj_at g l) k = Some v -> g !! l = Some (obj_at g l).
Proof. unfold obj_at. destruct (g !! l); [reflexivity | discriminate]. Qed.

(** Where every entry is already bound to what it locates, [load] changes
    nothing. *)
Lemma load_settled (listOfRules : list string) (g : heap) :
  (forall name, In name listOfRules -> has "/" name = true ->
                exists v, fst (locate plugins name g) = Normal v
                          /\ own_get (obj_at g ruleDefs) name = Some v) ->
  run listOfRules g = (Normal (VRef ruleDefs), g).
Proof.
  induction listOfRules as [|name rest IH]; intros Hall; [reflexivity|].
  cbv beta. rewrite load_cons. destruct (has "/" name) eqn:Hs.
  - destruct (Hall name (or_introl eq_refl) Hs) as (v & Hv & Hb).
    rewrite load_one_locate by exact Hs. rewrite Hv, (own_set_same _ _ _ Hb).
    rewrite (insert_id _ _ _ (allocated_of_own_get _ _ _ _ Hb)).
    apply IH. intros n Hn. apply Hall. right. exact Hn.
  - rewrite load_one_bare by exact Hs.
    apply IH. intros n Hn. apply Hall. right. exact Hn.
Qed.

Lemma load_all_located (listOfRules : list string) (h : heap) :
  all_located listOfRules h ->
  exists h',
    run listOfRules h = (Normal (VRef ruleDefs), h')
    /\ forall name v,
         In name listOfRules -> has "/" name = true ->
         fst (locate plugins name h) = Normal v ->
         own_get (obj_at h' ruleDefs) name = Some v.
Proof.
  intros Hall. destruct (load_located listOfRules h h (agree_refl h) Hall)
    as (h' & E & _ & Hb).
  exists h'. split; [exact E | exact Hb].
Qed.

End LoadOutcome.

(** X8. If every name of the list that has a slash can be located in the
    store [load] starts from, then [load] returns the registry, and the
    registry then binds each such name to the value located for it in the
    starting store: the bindings made on the way do not disturb later
    entries. *)
Theorem load_binds_every_located_rule
    (path_join : string -> string -> string) (ruleDefs : loc)
    (listOfRules : list string) (plugins : value) (h : heap) :
  (forall name, In name listOfRules -> has "/" name = true ->
                exists v, fst (locate plugins name h) = Normal v) ->
  exists h',
    load path_join ruleDefs listOfRules plugins h = (Normal (VRef ruleDefs), h')
    /\ forall name v,
         In name listOfRules -> has "/" name = true ->
         fst (locate plugins name h) = Normal v ->
         own_get (obj_at h' ruleDefs) name = Some v.
Proof.
  intros Hall.
  destruct (load_located path_join ruleDefs plugins listOfRules h h (agree_refl h) Hall)
    as (h' & E & _ & Hb).
  exists h'. split; [exact E | exact Hb].
Qed.

Lemma load_binds_every_located_rule_witness :
  (forall name,
      In name ["pluginA/ruleB"; "emit"; "pluginA/ruleB/more"] -> has "/" name = true ->
      exists v, fst (locate (VRef Examples.table) name Examples.store_with_plugin) = Normal v)
  /\ exists h',
       load Examples.posix_join Examples.registry
            ["pluginA/ruleB"; "emit"; "pluginA/ruleB/more"]
            (VRef Examples.table) Examples.store_with_plugin
       = (Normal (VRef Examples.registry), h')
       /\ own_get (obj_at h' Examples.registry) "pluginA/ruleB/more"
          = Some (VRef Examples.impl).
Proof.
  assert (forall name,
             In name ["pluginA/ruleB"; "emit"; "pluginA/ruleB/more"] ->
             has "/" name = true ->
             exists v, fst (locate (VRef Examples.table) name Examples.store_with_plugin)
                       = Normal v) as Hall.
  { intros name [<-|[<-|[<-|[]]]] Hs; try discriminate Hs;
      exists (VRef Examples.impl); vm_compute; reflexivity. }
  split; [exact Hall|].
  destruct (load_binds_every_located_rule Examples.posix_join Examples.registry
              _ (VRef Examples.table) Examples.store_with_plugin Hall) as (h' & E & Hb).
  exists h'. split; [exact E|].
  apply Hb; [right; right; left; reflexivity | reflexivity | vm_compute; reflexivity].
Defined.

(** X9. The first entry that cannot be located decides the outcome:
    [load] throws what locating it throws, the store is the one the entries
    before it produced (their bindings stay), and the entries after it play
    no part. *)
Theorem load_stops_at_first_failure
    (path_join : string -> string -> string) (ruleDefs : loc)
    (before : list string) (name : string) (after : list string)
    (plugins : value) (h : heap) (e : exn) :
  (forall n, In n before -> has "/" n = true ->
             exists v, fst (locate plugins n h) = Normal v) ->
  has "/" name = true ->
  fst (locate plugins name h) = Abrupt e ->
  exists h1,
    load path_join ruleDefs before plugins h = (Normal (VRef ruleDefs), h1)
    /\ load path_join ruleDefs (before ++ name :: after)%list plugins h = (Abrupt e, h1).
Proof.
  intros Hall Hs He.
  destruct (load_located path_join ruleDefs plugins before h h (agree_refl h) Hall)
    as (h1 & E & A & _).
  exists h1. split; [exact E|].
  rewrite load_concat. cbv beta in E. rewrite E.
  rewrite load_cons, load_one_locate by exact Hs.
  rewrite <- (locate_agree plugins name h h1 A), He. reflexivity.
Qed.

Lemma load_stops_at_first_failure_witness :
  (forall n, In n ["pluginA/ruleB"] -> has "/" n = true ->
             exists v, fst (locate (VRef Examples.table) n Examples.store_with_plugin)
                       = Normal v)
  /\ has "/" "nobody/x" = true
  /\ fst (locate (VRef Examples.table) "nobody/x" Examples.store_with_plugin)
     = Abrupt (TypeError (ReadProperty VUndefined "rules"))
  /\ exists h1,
       load Examples.posix_join Examples.registry ["pluginA/ruleB"]
            (VRef Examples.table) Examples.store_with_plugin
       = (Normal (VRef Examples.registry), h1)
       /\ load Examples.posix_join Examples.registry
               ["pluginA/ruleB"; "nobody/x"; "emit"]
               (VRef Examples.table) Examples.store_with_plugin
          = (Abrupt (TypeError (ReadProperty VUndefined "rules")), h1).
Proof.
  assert (forall n, In n ["pluginA/ruleB"] -> has "/" n = true ->
                    exists v, fst (locate (VRef Examples.table) n
                                          Examples.store_with_plugin) = Normal v) as Hall.
  { intros n [<-|[]] _. exists (VRef Examples.impl). vm_compute. reflexivity. }
  assert (fst (locate (VRef Examples.table) "nobody/x" Examples.store_with_plugin)
          = Abrupt (TypeError (ReadProperty VUndefined "rules"))) as He
    by (vm_compute; reflexivity).
  split; [exact Hall|]. split; [reflexivity|]. split; [exact He|].
  exact (load_stops_at_first_failure Examples.posix_join Examples.registry
           ["pluginA/ruleB"] "nobody/x" ["emit"] (VRef Examples.table)
           Examples.store_with_plugin _ Hall eq_refl He).
Defined.

Lemma obj_at_of_lookup (h g : heap) (l : loc) : h !! l = g !! l -> obj_at h l = obj_at g l.
Proof. intros E. unfold obj_at. rewrite E. reflexivity. Qed.

(** X10. The order of the list does not matter to a call that returns:
    [load] on any reordering of the list returns too, and every property of
    every object reads the same afterwards (only the order of the keys
    added to the registry may differ). *)
Theorem load_order_irrelevant
    (path_join : string -> string -> string) (ruleDefs : loc)
    (l l' : list string) (plugins : value) (h h1 : heap) (r : value) :
  Permutation l l' ->
  load path_join ruleDefs l plugins h = (Normal r, h1) ->
  exists h2,
    load path_join ruleDefs l' plugins h = (Normal r, h2)
    /\ forall o k, own_get (obj_at h2 o) k = own_get (obj_at h1 o) k.
Proof.
  intros P H.
  pose proof (load_Normal_located path_join ruleDefs plugins l h h1 r H) as Hall.
  assert (all_located plugins l' h) as Hall'.
  { intros n Hn. apply Hall. exact (Permutation_in _ (Permutation_sym P) Hn). }
  destruct (load_located path_join ruleDefs plugins l h h (agree_refl h) Hall)
    as (g1 & E1 & A1 & B1).
  destruct (load_located path_join ruleDefs plugins l' h h (agree_refl h) Hall')
    as (g2 & E2 & A2 & B2).
  cbv beta in E1, E2. rewrite E1 in H. injection H as <- <-.
  exists g2. split; [exact E2|]. intros o k.
  destruct (decide (o = ruleDefs)) as [->|Ho].
  - destruct (has "/" k) eqn:Hk;
      [|rewrite <- (A1 ruleDefs k Hk), <- (A2 ruleDefs k Hk); reflexivity].
    destruct (in_dec string_dec k l) as [Hin|Hin].
    + destruct (Hall k Hin Hk) as [v Hv].
      rewrite (B1 k v Hin Hk Hv), (B2 k v (Permutation_in _ P Hin) Hk Hv). reflexivity.
    + pose proof (load_frame path_join ruleDefs l plugins h k Hin) as F1.
      assert (~ In k l') as Hin'
        by (intros Hk'; apply Hin; exact (Permutation_in _ (Permutation_sym P) Hk')).
      pose proof (load_frame path_join ruleDefs l' plugins h k Hin') as F2.
      rewrite E1 in F1. rewrite E2 in F2. simpl in F1, F2. rewrite F1, F2. reflexivity.
  - pose proof (load_elsewhere path_join ruleDefs l plugins h o Ho) as F1.
    pose proof (load_elsewhere path_join ruleDefs l' plugins h o Ho) as F2.
    rewrite E1 in F1. rewrite E2 in F2. simpl in F1, F2.
    rewrite (obj_at_of_lookup _ _ _ F1), (obj_at_of_lookup _ _ _ F2). reflexivity.
Qed.

Lemma load_order_irrelevant_witness :
  Permutation ["pluginA/ruleB"; "emit"; "pluginA/ruleB/more"]
              ["pluginA/ruleB/more"; "pluginA/ruleB"; "emit"]
  /\ exists h1 h2,
       load Examples.posix_join Examples.registry
            ["pluginA/ruleB"; "emit"; "pluginA/ruleB/more"]
            (VRef Examples.table) Examples.store_with_plugin
       = (Normal (VRef Examples.registry), h1)
       /\ load Examples.posix_join Examples.registry
               ["pluginA/ruleB/more"; "pluginA/ruleB"; "emit"]
               (VRef Examples.table) Examples.store_with_plugin
          = (Normal (VRef Examples.registry), h2)
       /\ forall o k, own_get (obj_at h2 o) k = own_get (obj_at h1 o) k.
Proof.
  assert (Permutation ["pluginA/ruleB"; "emit"; "pluginA/ruleB/more"]
                      ["pluginA/ruleB/more"; "pluginA/ruleB"; "emit"]) as P.
  { apply Permutation_sym. apply (Permutation_cons_app [_; _] []). apply Permutation_refl. }
  split; [exact P|].
  eexists. 
  destruct (load_order_irrelevant Examples.posix_join Examples.registry _ _
              (VRef Examples.table) Examples.store_with_plugin _ _ P
              ltac:(vm_compute; reflexivity)) as (h2 & E2 & Hsame).
  exists h2. split; [reflexivity|]. split; [exact E2 | exact Hsame].
Defined.

(** X11. A call that returned can be repeated: [load] with the same list
    and plugins, started in the store the first call left, returns the
    same registry and leaves that store exactly as it is. *)
Theorem load_idempotent
    (path_join : string -> string -> string) (ruleDefs : loc)
    (listOfRules : list string) (plugins : value) (h h1 : heap) (r : value) :
  load path_join ruleDefs listOfRules plugins h = (Normal r, h1) ->
  load path_join ruleDefs listOfRules plugins h1 = (Normal r, h1).
Proof.
  intros H.
  pose proof (load_Normal_located path_join ruleDefs plugins listOfRules h h1 r H) as Hall.
  destruct (load_located path_join ruleDefs plugins listOfRules h h (agree_refl h) Hall)
    as (g & E & A & B).
  cbv beta in E. rewrite E in H. injection H as <- <-.
  apply (load_settled path_join ruleDefs plugins). intros name Hin Hs.
  destruct (Hall name Hin Hs) as [v Hv]. exists v. split.
  - rewrite <- (locate_agree plugins name h g A). exact Hv.
  - exact (B name v Hin Hs Hv).
Qed.

Lemma load_idempotent_witness :
  exists h1,
    load Examples.posix_join Examples.registry ["pluginA/ruleB"; "emit"]
         (VRef Examples.table) Examples.store_with_plugin
    = (Normal (VRef Examples.registry), h1)
    /\ load Examples.posix_join Examples.registry ["pluginA/ruleB"; "emit"]
            (VRef Examples.table) h1
       = (Normal (VRef Examples.registry), h1).
Proof.
  eexists. split; [vm_compute; reflexivity|].
  apply (load_idempotent Examples.posix_join Examples.registry _
           (VRef Examples.table) Examples.store_with_plugin).
  vm_compute. reflexivity.
Defined.

(** * Further properties of [resolvePluginConfig] *)

Lemma meta_docs_type_eta (plugin : value) (r : string) (h : heap) :
  meta_docs_type plugin r h = (fst (meta_docs_type plugin r h), h).
Proof.
  unfold meta_docs_type, bind.
  rewrite (Get_eta plugin). destruct (fst (Get plugin "rules" h)) as [rules|e]; [|reflexivity].
  rewrite (Get_eta rules). destruct (fst (Get rules r h)) as [rule|e]; [|reflexivity].
  rewrite (Get_eta rule). destruct (fst (Get rule "meta" h)) as [meta|e]; [|reflexivity].
  rewrite (Get_eta meta). destruct (fst (Get meta "docs" h)) as [docs|e]; [|reflexivity].
  rewrite (Get_eta docs). reflexivity.
Qed.

Lemma own_keys_set_in (o : object) (k0 k : string) (v : value) :
  In k (own_keys (own_set o k0 v)) -> k = k0 \/ In k (own_keys o).
Proof.
  induction o as [|[k' v'] o IH]; simpl.
  - intros [<-|[]]. left. reflexivity.
  - destruct (String.eqb k' k0) eqn:E; simpl; [tauto|].
    intros [H|H]; [tauto|]. destruct (IH H); tauto.
Qed.

(** The loop of lines 76-78 writes the object at [c] and nothing else, and
    every key it writes is the name, a slash, and one of the keys visited. *)
Lemma forEach_rules_effect (name : string) (plugin : value) (h : heap) (c : loc)
      (keys : list string) (cfg : object) :
  (forall k, In k (own_keys cfg) -> exists r, k = name +:+ "/" +:+ r) ->
  exists cfg',
    snd (forEach keys
           (fun ruleName =>
              type <- meta_docs_type plugin ruleName ;;
              Put c (name +:+ "/" +:+ ruleName) type)
           (<[c:=cfg]> h))
    = <[c:=cfg']> h
    /\ forall k, In k (own_keys cfg') -> exists r, k = name +:+ "/" +:+ r.
Proof.
  revert cfg. induction keys as [|r keys IH]; intros cfg Hcfg.
  - exists cfg. split; [reflexivity | exact Hcfg].
  - simpl. unfold bind at 1. unfold bind at 1. rewrite meta_docs_type_eta.
    destruct (fst (meta_docs_type plugin r (<[c:=cfg]> h))) as [t|e].
    + unfold Put. rewrite obj_at_insert_eq, insert_insert_eq.
      apply IH. intros k Hk. apply own_keys_set_in in Hk as [->|Hk];
        [exists r; reflexivity | exact (Hcfg k Hk)].
    + exists cfg. split; [reflexivity | exact Hcfg].
Qed.

(** X12. Whatever the plugin, and whether the call returns or throws,
    [resolvePluginConfig] changes the store only by adding one object at a
    reference that was not in use: no object that existed is touched.
    Every key of the new object is the name, a slash and a rule name, so it
    has a slash. *)
Theorem resolvePluginConfig_only_adds_config (name : string) (plugin : value) (h : heap) :
  exists cfg,
    snd (resolvePluginConfig name plugin h) = <[fresh (dom h) := cfg]> h
    /\ h !! fresh (dom h) = None
    /\ (forall l o, h !! l = Some o ->
                    snd (resolvePluginConfig name plugin h) !! l = Some o)
    /\ forall k, In k (own_keys cfg) ->
                 (exists r, k = name +:+ "/" +:+ r) /\ has "/" k = true.
Proof.
  assert (h !! fresh (dom h) = None) as Hc by (apply not_elem_of_dom, is_fresh).
  assert (exists cfg,
             snd (resolvePluginConfig name plugin h) = <[fresh (dom h) := cfg]> h
             /\ forall k, In k (own_keys cfg) -> exists r, k = name +:+ "/" +:+ r)
    as (cfg & E & Hk).
  { unfold resolvePluginConfig, alloc. unfold bind at 1. unfold bind at 1.
    rewrite (Get_eta plugin).
    destruct (fst (Get plugin "rules" _)) as [rules|e];
      [|exists []; split; [reflexivity | intros k []]].
    unfold bind at 1.
    assert (forall s, Object_keys rules s = (fst (Object_keys rules s), s)) as K
      by (intros s; destruct rules; reflexivity).
    rewrite K. destruct (fst (Object_keys rules _)) as [keys|e];
      [|exists []; split; [reflexivity | intros k []]].
    unfold bind at 1.
    destruct (forEach_rules_effect name plugin h (fresh (dom h)) keys [])
      as (cfg & E & Hk); [intros k []|].
    exists cfg. split; [|exact Hk].
    destruct (forEach keys _ _) as [[[]|e] s]; simpl in E; subst s; reflexivity. }
  exists cfg. split; [exact E|]. split; [exact Hc|]. split.
  - intros l o Hl. rewrite E, lookup_insert_ne; [exact Hl|].
    intros <-. rewrite Hc in Hl. discriminate.
  - intros k Hin. destruct (Hk k Hin) as [r ->]. split; [exists r; reflexivity|].
    apply (has_append "/" name r).
Qed.

(** X13. The first rule, in key order, that is an object without [meta]
    stops [resolvePluginConfig] with the [TypeError] of reading [docs] from
    [undefined]; the rules after it are not visited, and the store holds,
    besides what it held, only the abandoned config object with the
    entries of the rules before it. *)
Theorem resolvePluginConfig_stops_at_rule_without_meta
    (name : string) (plugin : value) (h : heap) (ro : object)
    (before : list string) (r : string) (after : list string)
    (rule : value) (o : object) :
  plugin_rules h plugin = Some ro ->
  own_keys ro = (before ++ r :: after)%list ->
  (forall r', In r' before ->
              exists rule', own_get ro r' = Some rule'
                            /\ declared_type h rule' = Some (type_of_rule h ro r')) ->
  own_get ro r = Some rule ->
  as_object h rule = Some o ->
  own_get o "meta" = None ->
  resolvePluginConfig name plugin h
  = (Abrupt (TypeError (ReadProperty VUndefined "docs")),
     <[fresh (dom h) := config_after name (type_of_rule h ro) before []]> h).
Proof.
  intros Hp Hkeys Hbefore Hr Ho Hmeta. set (c := fresh (dom h)).
  assert (h !! c = None) as Hc by (apply not_elem_of_dom, is_fresh).
  assert (h ⊆ <[c:=[]]> h) as Hsub by (apply insert_subseteq; exact Hc).
  pose proof (plugin_rules_weaken _ _ _ _ Hsub Hp) as Hp'.
  unfold resolvePluginConfig, alloc. unfold bind at 1. fold c.
  unfold plugin_rules in Hp'.
  destruct (as_object (<[c:=[]]> h) plugin) as [po|] eqn:E0; [|discriminate].
  unfold bind at 1. rewrite (Get_object _ _ _ _ E0).
  unfold bind at 1.
  assert (Object_keys (read po "rules") (<[c:=[]]> h)
          = (Normal (own_keys ro), <[c:=[]]> h)) as K.
  { destruct (read po "rules"); simpl in Hp'; try discriminate.
    unfold Object_keys, obj_at. rewrite Hp'. reflexivity. }
  rewrite K, Hkeys. unfold bind at 1. rewrite forEach_app.
  rewrite (forEach_rules name h plugin ro c (type_of_rule h ro) before [] Hc Hp Hbefore).
  set (cfg := config_after name (type_of_rule h ro) before []).
  assert (h ⊆ <[c:=cfg]> h) as Hsub' by (apply insert_subseteq; exact Hc).
  pose proof (plugin_rules_weaken _ _ _ _ Hsub' Hp) as Hq. unfold plugin_rules in Hq.
  destruct (as_object (<[c:=cfg]> h) plugin) as [po'|] eqn:E1; [|discriminate].
  simpl. unfold bind at 1. unfold bind at 1. unfold meta_docs_type. unfold bind at 1.
  rewrite (Get_object _ _ _ _ E1). unfold bind at 1.
  rewrite (Get_object _ _ _ _ Hq).
  replace (read ro r) with rule by (unfold read; rewrite Hr; reflexivity).
  unfold bind at 1.
  rewrite (Get_object _ _ _ _ (as_object_weaken _ _ _ _ Hsub' Ho)).
  replace (read o "meta") with VUndefined by (unfold read; rewrite Hmeta; reflexivity).
  reflexivity.
Qed.

(** The plugin [mixed]: bar is copied, baz stops the call, ruleB is never
    visited, and the abandoned config holds the one entry of bar. *)
Lemma resolvePluginConfig_stops_at_rule_without_meta_witness :
  plugin_rules Examples.store_with_mixed (VRef Examples.mixed)
  = Some [("bar", VRef Examples.bar); ("baz", VRef Examples.baz);
          ("ruleB", VRef Examples.impl)]
  /\ resolvePluginConfig "mixed" (VRef Examples.mixed) Examples.store_with_mixed
     = (Abrupt (TypeError (ReadProperty VUndefined "docs")),
        <[fresh (dom Examples.store_with_mixed) := [("mixed/bar", VStr "security")]]>
          Examples.store_with_mixed).
Proof.
  assert (plugin_rules Examples.store_with_mixed (VRef Examples.mixed)
          = Some [("bar", VRef Examples.bar); ("baz", VRef Examples.baz);
                  ("ruleB", VRef Examples.impl)]) as Hp by (vm_compute; reflexivity).
  split; [exact Hp|].
  assert (config_after "mixed"
            (type_of_rule Examples.store_with_mixed
               [("bar", VRef Examples.bar); ("baz", VRef Examples.baz);
                ("ruleB", VRef Examples.impl)]) ["bar"] []
          = [("mixed/bar", VStr "security")]) as Hcfg by (vm_compute; reflexivity).
  rewrite <- Hcfg.
  apply (resolvePluginConfig_stops_at_rule_without_meta "mixed" (VRef Examples.mixed)
           Examples.store_with_mixed
           [("bar", VRef Examples.bar); ("baz", VRef Examples.baz);
            ("ruleB", VRef Examples.impl)]
           ["bar"] "baz" ["ruleB"] (VRef Examples.baz) []).
  - exact Hp.
  - reflexivity.
  - intros r' [<-|[]]. exists (VRef Examples.bar). split; vm_compute; reflexivity.
  - reflexivity.
  - vm_compute. reflexivity.
  - reflexivity.
Defined.

(** X14. From [resolvePluginConfig] to [load], for the whole table: when
    neither the plugin name nor any of its rule names has a slash and the
    plugin is in the plugin table under its package name, [load] on the
    keys of the config [resolvePluginConfig] returned, run in the store it
    left, returns the registry with every key bound to the rule of the
    plugin it was made from. *)
Theorem plugin_config_keys_all_load
    (path_join : string -> string -> string) (ruleDefs : loc)
    (name : string) (plugin : value) (tbl : loc) (h : heap) (ro : object) :
  has "/" name = false ->
  well_formed_plugin h plugin = true ->
  plugin_rules h plugin = Some ro ->
  (forall r, In r (own_keys ro) -> has "/" r = false) ->
  own_get (obj_at h tbl) (SOLIUM_PLUGIN_PREFIX +:+ name) = Some plugin ->
  exists hc h',
    resolvePluginConfig name plugin h = (Normal (VRef (fresh (dom h))), hc)
    /\ load path_join ruleDefs (own_keys (obj_at hc (fresh (dom h)))) (VRef tbl) hc
       = (Normal (VRef ruleDefs), h')
    /\ forall r, In r (own_keys ro) ->
                 own_get (obj_at h' ruleDefs) (name +:+ "/" +:+ r) = Some (read ro r).
Proof.
  intros Hn Hwf Hp Hbare Htbl.
  destruct (resolvePluginConfig_on_well_formed name plugin h Hwf)
    as (ro' & Hp' & _ & Hrun & Hcfg).
  rewrite Hp in Hp'. injection Hp' as <-.
  set (c := fresh (dom h)) in *.
  set (cfg := config_after name (type_of_rule h ro) (own_keys ro) []) in *.
  assert (h !! c = None) as Hc by (apply not_elem_of_dom, is_fresh).
  assert (h ⊆ <[c:=cfg]> h) as Hsub by (apply insert_subseteq; exact Hc).
  assert (forall r, In r (own_keys ro) ->
                    fst (locate (VRef tbl) (name +:+ "/" +:+ r) (<[c:=cfg]> h))
                    = Normal (read ro r)) as Hloc.
  { intros r Hr.
    assert (split "/" (name +:+ "/" +:+ r) = [name; r]) as Hsplit.
    { change (name +:+ "/" +:+ r) with (name +:+ String "/" r).
      rewrite split_at_first by exact Hn.
      rewrite split_without by (apply Hbare; exact Hr). reflexivity. }
    pose proof (plugin_rules_weaken _ _ _ _ Hsub Hp) as Hq. unfold plugin_rules in Hq.
    destruct (as_object (<[c:=cfg]> h) plugin) as [po|] eqn:E0; [|discriminate].
    assert (as_object (<[c:=cfg]> h) (VRef tbl) = Some (obj_at h tbl)) as Et
      by (apply (as_object_weaken h _ _ _ Hsub); simpl;
          exact (allocated_of_own_get _ _ _ _ Htbl)).
    unfold locate, bind, try_catch. rewrite Hsplit.
    change (at_ [name; r] 0) with name. change (at_ [name; r] 1) with r.
    rewrite (Get_object _ _ _ _ Et).
    replace (read (obj_at h tbl) (SOLIUM_PLUGIN_PREFIX +:+ name)) with plugin
      by (unfold read; rewrite Htbl; reflexivity).
    rewrite (Get_object _ _ _ _ E0), (Get_object _ _ _ _ Hq). reflexivity. }
  assert (own_keys (obj_at (<[c:=cfg]> h) c)
          = map (fun r => name +:+ "/" +:+ r) (own_keys ro)) as Hkeys
    by (rewrite obj_at_insert_eq; exact Hcfg).
  destruct (load_all_located path_join ruleDefs (VRef tbl)
              (own_keys (obj_at (<[c:=cfg]> h) c)) (<[c:=cfg]> h)) as (h' & E & Hb).
  { intros k Hk _. rewrite Hkeys in Hk. apply in_map_iff in Hk as (r & <- & Hr).
    exists (read ro r). apply Hloc. exact Hr. }
  exists (<[c:=cfg]> h), h'. split; [exact Hrun|]. split; [exact E|].
  intros r Hr. apply Hb.
  - rewrite Hkeys. apply in_map_iff. exists r. split; [reflexivity | exact Hr].
  - apply (has_append "/" name r).
  - apply Hloc. exact Hr.
Qed.

Lemma plugin_config_keys_all_load_witness :
  exists hc h',
    resolvePluginConfig "pluginA" (VRef Examples.pluginA) Examples.store_with_plugin
    = (Normal (VRef (fresh (dom Examples.store_with_plugin))), hc)
    /\ load Examples.posix_join Examples.registry
            (own_keys (obj_at hc (fresh (dom Examples.store_with_plugin))))
            (VRef Examples.table) hc
       = (Normal (VRef Examples.registry), h')
    /\ forall r, In r (own_keys [("ruleB", VRef Examples.impl)]) ->
                 own_get (obj_at h' Examples.registry) ("pluginA" +:+ "/" +:+ r)
                 = Some (read [("ruleB", VRef Examples.impl)] r).
Proof.
  apply (plugin_config_keys_all_load Examples.posix_join Examples.registry
           "pluginA" (VRef Examples.pluginA) Examples.table Examples.store_with_plugin
           [("ruleB", VRef Examples.impl)]);
    [reflexivity | vm_compute; reflexivity | vm_compute; reflexivity
     | intros r [<-|[]]; reflexivity | vm_compute; reflexivity].
Defined.

(** * Further properties of [resolveUpstream] *)

Lemma all_chars_excludes (p : ascii -> bool) (c : ascii) (s : string) :
  p c = false -> all_chars p s = true -> has c s = false.
Proof.
  intros Hc. induction s as [|a s IH]; simpl; [reflexivity|].
  intros H. apply andb_true_iff in H as [Ha Hs]. rewrite (IH Hs), orb_false_r.
  destruct (Ascii.eqb a c) eqn:E; [|reflexivity].
  apply Ascii.eqb_eq in E. subst a. rewrite Hc in Ha. discriminate.
Qed.

(** X15. For a reference taken as a core ruleset, the part of the module
    path that comes from the reference is not empty and has no slash, no
    dot and no colon: the module required always lies directly in the
    rulesets directory, under a name that starts with solium-. *)
Theorem resolveUpstream_core_path_confined
    (require : string -> M value) (isAValidSharableConfig : value -> M bool)
    (inspect_errors : M string) (type_fault_message : type_fault -> string)
    (upstream : string) :
  coreRulesetRegExp_test upstream = true ->
  at_ (split ":" upstream) 1 <> EmptyString
  /\ has "/" (at_ (split ":" upstream) 1) = false
  /\ has "." (at_ (split ":" upstream) 1) = false
  /\ has ":" (at_ (split ":" upstream) 1) = false
  /\ forall h,
       resolveUpstream require isAValidSharableConfig inspect_errors
                       type_fault_message upstream h
       = try_catch
           (exports <- require ("../../config/rulesets/solium-"
                                +:+ at_ (split ":" upstream) 1) ;;
            Get exports "rules")
           (fun _ => throw (Error (not_a_core_ruleset upstream))) h.
Proof.
  intros Hm. destruct (coreRulesetRegExp_shape upstream Hm) as (id & _ & Hne & Hall & Hid).
  rewrite Hid.
  split; [exact Hne|].
  split; [apply (all_chars_excludes lower_or_underscore); [reflexivity | exact Hall]|].
  split; [apply (all_chars_excludes lower_or_underscore); [reflexivity | exact Hall]|].
  split; [apply (all_chars_excludes lower_or_underscore); [reflexivity | exact Hall]|].
  intros h. rewrite resolve_core by exact Hm. rewrite Hid. reflexivity.
Qed.

Lemma resolveUpstream_core_path_confined_witness :
  coreRulesetRegExp_test "solium:all" = true
  /\ has "/" (at_ (split ":" "solium:all") 1) = false
  /\ has "." (at_ (split ":" "solium:all") 1) = false.
Proof.
  split; [reflexivity|].
  destruct (resolveUpstream_core_path_confined Examples.host_require
              Examples.host_validator Examples.host_inspect
              Examples.host_fault_message "solium:all" eq_refl) as (_ & H1 & H2 & _).
  split; [exact H1 | exact H2].
Defined.

(** X16. A core ruleset is not validated.  When its module exports an
    object without a [rules] property, [resolveUpstream] returns
    [undefined]; when it exports [undefined] or [null], the read of [rules]
    throws inside the [try] block and the outcome is the error that the
    reference is not a core ruleset. *)
Theorem resolveUpstream_core_without_rules
    (require : string -> M value) (isAValidSharableConfig : value -> M bool)
    (inspect_errors : M string) (type_fault_message : type_fault -> string)
    (upstream : string) (h h1 : heap) (exports : value) :
  coreRulesetRegExp_test upstream = true ->
  require ("../../config/rulesets/solium-" +:+ at_ (split ":" upstream) 1) h
  = (Normal exports, h1) ->
  (forall l, exports = VRef l -> own_get (obj_at h1 l) "rules" = None ->
             resolveUpstream require isAValidSharableConfig inspect_errors
                             type_fault_message upstream h
             = (Normal VUndefined, h1))
  /\ (exports = VUndefined \/ exports = VNull ->
      resolveUpstream require isAValidSharableConfig inspect_errors
                      type_fault_message upstream h
      = (Abrupt (Error (not_a_core_ruleset upstream)), h1)).
Proof.
  intros Hm Hr. split.
  - intros l -> Hnone. rewrite resolve_core by exact Hm.
    unfold try_catch, bind. rewrite Hr. unfold Get, read. rewrite Hnone. reflexivity.
  - intros Hx. rewrite resolve_core by exact Hm.
    unfold try_catch, bind. rewrite Hr. destruct Hx as [-> | ->]; reflexivity.
Qed.

Lemma resolveUpstream_core_without_rules_witness :
  coreRulesetRegExp_test "solium:all" = true
  /\ resolveUpstream (fun _ => ret (VRef Examples.table)) Examples.host_validator
                     Examples.host_inspect Examples.host_fault_message
                     "solium:all" Examples.store
     = (Normal VUndefined, Examples.store).
Proof.
  split; [reflexivity|].
  apply (proj1 (resolveUpstream_core_without_rules
                  (fun _ => ret (VRef Examples.table)) Examples.host_validator
                  Examples.host_inspect Examples.host_fault_message
                  "solium:all" Examples.store Examples.store (VRef Examples.table)
                  eq_refl eq_refl) Examples.table eq_refl).
  reflexivity.
Defined.

(** X17. [resolveUpstream] writes nothing to the store itself: when
    [require], the validator and the rendering of its errors leave the
    store as they find it, so does [resolveUpstream], whether it returns or
    throws. *)
Theorem resolveUpstream_writes_nothing
    (require : string -> M value) (isAValidSharableConfig : value -> M bool)
    (inspect_errors : M string) (type_fault_message : type_fault -> string)
    (upstream : string) (h : heap) :
  (forall path s, snd (require path s) = s) ->
  (forall config s, snd (isAValidSharableConfig config s) = s) ->
  (forall s, snd (inspect_errors s) = s) ->
  snd (resolveUpstream require isAValidSharableConfig inspect_errors
                       type_fault_message upstream h) = h.
Proof.
  intros Hr Hv Hi. unfold resolveUpstream.
  destruct (coreRulesetRegExp_test upstream).
  - unfold try_catch, bind.
    match goal with |- context [require ?p h] =>
      pose proof (Hr p h) as E; destruct (require p h) as [[exports|e] s] end;
      simpl in E; subst s; [|reflexivity].
    rewrite (Get_eta exports). destruct (fst (Get exports "rules" h)); reflexivity.
  - unfold try_catch, bind, throw.
    match goal with |- context [require ?p h] =>
      pose proof (Hr p h) as E; destruct (require p h) as [[config|e] s] end;
      simpl in E; subst s.
    + pose proof (Hv config h) as E.
      destruct (isAValidSharableConfig config h) as [[[|]|e] s]; simpl in E; subst s.
      * apply Get_store.
      * pose proof (Hi h) as E. destruct (inspect_errors h) as [[d|e] s];
          simpl in E; subst s; reflexivity.
      * reflexivity.
    + destruct (decide (exn_code e = Some "MODULE_NOT_FOUND")); reflexivity.
Qed.

Lemma resolveUpstream_writes_nothing_witness :
  snd (resolveUpstream Examples.host_require Examples.host_validator
                       Examples.host_inspect Examples.host_fault_message
                       "standard" Examples.store_with_ruleset)
  = Examples.store_with_ruleset.
Proof.
  apply (resolveUpstream_writes_nothing Examples.host_require Examples.host_validator
           Examples.host_inspect Examples.host_fault_message).
  - intros path s. unfold Examples.host_require.
    destruct (String.eqb path _); reflexivity.
  - intros config s. reflexivity.
  - intros s. reflexivity.
Defined.

(** * Missing keys *)

(** X18. A plugin object without a [rules] property makes
    [resolvePluginConfig] throw the [TypeError] of [Object.keys] applied to
    [undefined]; the store then holds, besides what it held, the empty
    config object. *)
Theorem resolvePluginConfig_plugin_without_rules
    (name : string) (plugin : value) (h : heap) (po : object) :
  as_object h plugin = Some po ->
  own_get po "rules" = None ->
  resolvePluginConfig name plugin h
  = (Abrupt (TypeError (ToObject VUndefined)), <[fresh (dom h) := []]> h).
Proof.
  intros Ho Hnone.
  assert (h !! fresh (dom h) = None) as Hc by (apply not_elem_of_dom, is_fresh).
  assert (h ⊆ <[fresh (dom h) := []]> h) as Hsub by (apply insert_subseteq; exact Hc).
  unfold resolvePluginConfig, alloc. unfold bind at 1. unfold bind at 1.
  rewrite (Get_object _ _ _ _ (as_object_weaken _ _ _ _ Hsub Ho)).
  replace (read po "rules") with VUndefined by (unfold read; rewrite Hnone; reflexivity).
  reflexivity.
Qed.

Lemma resolvePluginConfig_plugin_without_rules_witness :
  as_object Examples.store_with_plugin (VRef Examples.baz) = Some []
  /\ resolvePluginConfig "baz" (VRef Examples.baz) Examples.store_with_plugin
     = (Abrupt (TypeError (ToObject VUndefined)),
        <[fresh (dom Examples.store_with_plugin) := []]> Examples.store_with_plugin).
Proof.
  assert (as_object Examples.store_with_plugin (VRef Examples.baz) = Some []) as H
    by (vm_compute; reflexivity).
  split; [exact H|].
  exact (resolvePluginConfig_plugin_without_rules "baz" (VRef Examples.baz)
           Examples.store_with_plugin [] H eq_refl).
Defined.

Lemma inherited_cases (k : string) :
  (In k Object_prototype_members -> inherited k = VInherited k)
  /\ (~ In k Object_prototype_members -> inherited k = VUndefined).
Proof.
  unfold inherited.
  destruct (existsb (String.eqb k) Object_prototype_members) eqn:E.
  - split; [reflexivity|]. intros Hn. exfalso. apply Hn.
    apply existsb_exists in E as (m & Hm & Em). apply String.eqb_eq in Em. subst m. exact Hm.
  - split; [|reflexivity]. intros Hin. exfalso.
    assert (existsb (String.eqb k) Object_prototype_members = true) as T
      by (apply existsb_exists; exists k; split; [exact Hin | apply String.eqb_refl]).
    rewrite E in T. discriminate.
Qed.

(** X19. A rule the plugin does not have is bound all the same.  When the
    plugin is in the table and its [rules] object has no own property of
    the rule name, [load] returns the registry with the full name bound to
    [undefined], unless the rule name is the name of a member of
    [Object.prototype] (constructor, toString, ...), in which case the name
    is bound to that inherited member. *)
Theorem load_binds_missing_rule
    (path_join : string -> string -> string) (ruleDefs : loc)
    (name : string) (tbl : loc) (h : heap) (plugin : value) (po ro : object) :
  has "/" name = true ->
  own_get (obj_at h tbl) (SOLIUM_PLUGIN_PREFIX +:+ at_ (split "/" name) 0) = Some plugin ->
  as_object h plugin = Some po ->
  as_object h (read po "rules") = Some ro ->
  own_get ro (at_ (split "/" name) 1) = None ->
  load path_join ruleDefs [name] (VRef tbl) h
  = (Normal (VRef ruleDefs),
     <[ruleDefs := own_set (obj_at h ruleDefs) name
                           (inherited (at_ (split "/" name) 1))]> h)
  /\ (~ In (at_ (split "/" name) 1) Object_prototype_members ->
      own_get (obj_at (snd (load path_join ruleDefs [name] (VRef tbl) h)) ruleDefs) name
      = Some VUndefined)
  /\ (In (at_ (split "/" name) 1) Object_prototype_members ->
      own_get (obj_at (snd (load path_join ruleDefs [name] (VRef tbl) h)) ruleDefs) name
      = Some (VInherited (at_ (split "/" name) 1))).
Proof.
  intros Hs Hp Hpo Hro Hnone.
  assert (load path_join ruleDefs [name] (VRef tbl) h
          = (Normal (VRef ruleDefs),
             <[ruleDefs := own_set (obj_at h ruleDefs) name
                                   (inherited (at_ (split "/" name) 1))]> h)) as E.
  { rewrite load_cons,
      (load_one_plugin path_join ruleDefs name tbl h plugin (read po "rules")
         (inherited (at_ (split "/" name) 1)) Hs Hp).
    - apply load_nil.
    - apply Get_object. exact Hpo.
    - rewrite (Get_object _ _ _ _ Hro). unfold read. rewrite Hnone. reflexivity. }
  split; [exact E|]. rewrite E. simpl. rewrite obj_at_insert_eq, own_get_set_eq.
  destruct (inherited_cases (at_ (split "/" name) 1)) as [Hin Hout].
  split; intros H; [rewrite (Hout H) | rewrite (Hin H)]; reflexivity.
Qed.

Lemma load_binds_missing_rule_witness :
  has "/" "pluginA/toString" = true
  /\ own_get (obj_at (snd (load Examples.posix_join Examples.registry
                                ["pluginA/toString"] (VRef Examples.table)
                                Examples.store_with_plugin))
                     Examples.registry) "pluginA/toString"
     = Some (VInherited "toString")
  /\ own_get (obj_at (snd (load Examples.posix_join Examples.registry
                                ["pluginA/nothing"] (VRef Examples.table)
                                Examples.store_with_plugin))
                     Examples.registry) "pluginA/nothing"
     = Some VUndefined.
Proof.
  split; [reflexivity|]. split.
  - apply (load_binds_missing_rule Examples.posix_join Examples.registry
             "pluginA/toString" Examples.table Examples.store_with_plugin
             (VRef Examples.pluginA) [("rules", VRef Examples.pluginA_rules)]
             [("ruleB", VRef Examples.impl)]);
      try (vm_compute; reflexivity).
    vm_compute. tauto.
  - apply (load_binds_missing_rule Examples.posix_join Examples.registry
             "pluginA/nothing" Examples.table Examples.store_with_plugin
             (VRef Examples.pluginA) [("rules", VRef Examples.pluginA_rules)]
             [("ruleB", VRef Examples.impl)]);
      try (vm_compute; reflexivity).
    vm_compute. intros H. repeat (destruct H as [H|H]; [discriminate H|]). exact H.
Defined.
